(** * cosmos-upgrade-watcher: the watch loop of [chain_watcher.py]

    A shallow embedding of [fetch_upgrade_plan], [fetch_block_height] and
    [ChainWatcher.monitor] with its helpers, followed by the properties of
    the reconciliation cycle.

    Layout:
    - [Py]: the Python values that [req.json()] yields and the builtin
      operations the watcher applies to them ([not], [in], [x[k]], [int]);
    - [Effects]: the store (ledger table, Prometheus metrics), the events a
      run emits, and the monad the watcher runs in;
    - [ChainClient]: the two module-level fetch functions;
    - [ChainWatcher]: the methods of the class, one definition per method;
    - the vocabulary of the properties and a concrete deployment
      ([Scenario]) for the examples;
    - the theorems: the methods run on given answers, then the properties
      of the chain client, of one iteration, and of whole runs. *)

From Stdlib Require Import ZArith String Ascii.
From stdpp Require Import base option list gmap strings pretty.

Set Warnings "-register-all".
Local Open Scope string_scope.
Local Open Scope Z_scope.
Local Open Scope list_scope.

(** ** Python values and builtins *)

Module Py.

(** Exceptions that can travel through [monitor].  The first four are the
    classes declared at the top of [chain_watcher.py]; the others come from
    the builtins and the libraries the watcher calls. *)
Inductive SqliteError :=
  | OperationalError (msg : string)   (* the class the ledger writes catch *)
  | DatabaseError (msg : string).     (* any other [sqlite3.Error] *)

Inductive Exn :=
  | UpgradeRequestFailed (text : string)
  | PlanNotInRequest
  | BlockNotInRequest
  | BlockRequestFailed (text : string)
  | KeyError (key : string)
  | TypeError
  | ValueError
  | OverflowError
  | JSONDecodeError         (* [req.json()] on a body that is not JSON *)
  | RequestException        (* [requests.get]: no response at all *)
  | Sqlite (e : SqliteError)
  | SlackError.             (* raised out of [WebhookClient.send] *)

(** The result of evaluating a Python expression. *)
Inductive Res (A : Type) :=
  | Ok (a : A)
  | Raise (e : Exn).
Arguments Ok {A} a.
Arguments Raise {A} e.

#[global] Instance Res_ret : MRet Res := @Ok.
#[global] Instance Res_bind : MBind Res := λ A B f r,
  match r with Ok a => f a | Raise e => Raise e end.

(** A Python [float]: a finite dyadic [m * 2^e], an infinity or a NaN.
    Only truthiness and truncation by [int] are needed. *)
Inductive PyFloat :=
  | Finite (m e : Z)
  | Infinity (negative : bool)
  | NaN.

(** What [json.loads] builds: [None], [bool], [int], [float], [str],
    [list] and [dict].  A [dict] is kept as its key/value pairs in
    document order; of two pairs with one key the later wins, as in
    [json.loads]. *)
Inductive Value :=
  | VNone
  | VBool (b : bool)
  | VInt (z : Z)
  | VFloat (f : PyFloat)
  | VStr (s : string)
  | VList (items : list Value)
  | VDict (items : list (string * Value)).

Fixpoint dict_get {A : Type} (k : string) (kvs : list (string * A)) : option A :=
  match kvs with
  | [] => None
  | (k', v) :: rest =>
      match dict_get k rest with
      | Some v' => Some v'
      | None => if String.eqb k k' then Some v else None
      end
  end.

(** [bool(v)], as used by [not plan]. *)
Definition truthy (v : Value) : bool :=
  match v with
  | VNone => false
  | VBool b => b
  | VInt z => negb (z =? 0)
  | VFloat (Finite m _) => negb (m =? 0)
  | VFloat _ => true
  | VStr s => negb (String.eqb s "")
  | VList l => match l with [] => false | _ => true end
  | VDict l => match l with [] => false | _ => true end
  end.

Definition is_str (k : string) (v : Value) : bool :=
  match v with VStr s => String.eqb s k | _ => false end.

(** [k in v] for a string [k]: key membership in a dict, element
    membership in a list, substring test in a string, [TypeError] for
    anything that is not a container. *)
Definition contains (k : string) (v : Value) : Res bool :=
  match v with
  | VDict kvs => Ok (bool_decide (is_Some (dict_get k kvs)))
  | VList l => Ok (existsb (is_str k) l)
  | VStr s => Ok (bool_decide (is_Some (String.index 0 k s)))
  | _ => Raise TypeError
  end.

(** [v[k]] for a string [k]. *)
Definition getitem (v : Value) (k : string) : Res Value :=
  match v with
  | VDict kvs =>
      match dict_get k kvs with
      | Some x => Ok x
      | None => Raise (KeyError k)
      end
  | _ => Raise TypeError
  end.

(** [int(s)] for a string of ASCII characters: surrounding whitespace
    (tab, line feed, vertical tab, form feed, carriage return, space) is
    stripped, one sign is allowed, single underscores may separate digits,
    and a literal of more than [max_str_digits] digits is refused, as the
    interpreter does by default.  A character outside ASCII is rejected
    here, although [int] accepts the decimal digits and spaces of other
    scripts: the model speaks for ASCII text, see [ascii_only]. *)
Definition is_space (c : ascii) : bool :=
  let n := N_of_ascii c in
  (((9 <=? n) && (n <=? 13)) || (n =? 32))%N.

(** [sys.get_int_max_str_digits()], at its default. *)
Definition max_str_digits : nat := 4300.

Definition digit_of (c : ascii) : option Z :=
  let n := Z.of_N (N_of_ascii c) in
  if (48 <=? n) && (n <=? 57) then Some (n - 48) else None.

Fixpoint digits_value (acc : Z) (after_digit : bool) (cs : list ascii) : option Z :=
  match cs with
  | [] => if after_digit then Some acc else None
  | c :: cs' =>
      match digit_of c with
      | Some d => digits_value (10 * acc + d) true cs'
      | None =>
          if Ascii.eqb c "_" && after_digit
          then digits_value acc false cs'
          else None
      end
  end.

Fixpoint lstrip (cs : list ascii) : list ascii :=
  match cs with
  | c :: cs' => if is_space c then lstrip cs' else cs
  | [] => []
  end.

Definition strip (cs : list ascii) : list ascii :=
  rev (lstrip (rev (lstrip cs))).

Definition digit_count (cs : list ascii) : nat :=
  length (List.filter (λ c, bool_decide (is_Some (digit_of c))) cs).

(** The digits after the sign: their value, unless there are too many. *)
Definition literal_value (cs : list ascii) : option Z :=
  if (digit_count cs <=? max_str_digits)%nat then digits_value 0 false cs else None.

Definition int_of_str (s : string) : option Z :=
  match strip (list_ascii_of_string s) with
  | c :: cs =>
      if Ascii.eqb c "-" then Z.opp <$> literal_value cs
      else if Ascii.eqb c "+" then literal_value cs
      else literal_value (c :: cs)
  | [] => None
  end.

Definition ascii_only (s : string) : bool :=
  forallb (λ c, (N_of_ascii c <? 128)%N) (list_ascii_of_string s).

(** [int(f)] truncates toward zero. *)
Definition int_of_float (f : PyFloat) : Res Z :=
  match f with
  | Finite m e => Ok (if 0 <=? e then m * 2 ^ e else m ÷ 2 ^ (- e))
  | Infinity _ => Raise OverflowError
  | NaN => Raise ValueError
  end.

(** The builtin [int(v)]. *)
Definition int (v : Value) : Res Z :=
  match v with
  | VInt z => Ok z
  | VBool b => Ok (if b then 1 else 0)
  | VFloat f => int_of_float f
  | VStr s =>
      match int_of_str s with
      | Some z => Ok z
      | None => Raise ValueError
      end
  | VNone | VList _ | VDict _ => Raise TypeError
  end.

End Py.

Import Py.

(** ** Store, events and the monad of the watcher *)

Module Effects.

(** Modelled from the spec: the [CREATE TABLE chains] statement is not part
    of [chain_watcher.py].  The table is keyed by [chain_id] with the columns
    [chain_id, upgrade_height, is_reminder_sent]; SQLite hands the last
    column back as an integer, [0] for the [False] that
    [update_db_upgrade] writes and [1] for the [True] of
    [update_db_reminder]. *)
Record Row := { upgrade_height : Z; is_reminder_sent : Z }.

(** What persists between the steps of a run: the table, the gauge
    (labelled by chain id) and the counter (labelled by chain id and
    error). *)
Record Store := {
  chains : gmap string Row;
  last_checked_time : gmap string Z;
  error_counter : gmap (string * string) nat
}.

Inductive Sql :=
  | Select (chain_id : string)
  | InsertOrReplace (chain_id : string) (height : Z) (reminder : Z)
  | UpdateReminder (chain_id : string) (reminder : Z).

Inductive Level := DEBUG | ERROR.

Inductive Message :=
  | Notice (chain_id : string) (name height : Value)
  | Reminder (chain_id : string) (name height : Value) (remaining block : Z).

(** The calls a run makes to the outside, in order.  [Execute] records
    a statement handed to [cursor.execute] together with what SQLite
    answered to it.  The [db_conn.commit()] that follows a write is not an
    event of its own: when it raises, the statement before it has
    executed. *)
Inductive Event :=
  | Connect (db_path : string)
  | Sleep (seconds : Z)
  | Log (level : Level) (msg : string) (args : list string)
  | HttpGet (url : string)
  | Execute (q : Sql) (fault : option SqliteError)
  | Send (m : Message).

(** The answer of [requests.get]: no response at all, or a response with
    its status code, its text and what [req.json()] makes of it ([None]
    when the body is not JSON). *)
Inductive HttpResult :=
  | NoResponse
  | Response (status_code : Z) (text : string) (json : option Value).

(** Where a write raises: in [cursor.execute], or only in the
    [db_conn.commit()] after it. *)
Inductive Stage := AtExecute | AtCommit.

(** What the outside world answers during one iteration of the loop. *)
Record Env := {
  http : string → HttpResult;
  clock : Z;                              (* [time.time()] *)
  select_fault : option SqliteError;      (* the [SELECT] raises *)
  write_fault : option (Stage * SqliteError);  (* the write raises, and where *)
  send_fault : bool                       (* [WebhookClient.send] raises *)
}.

Record Run (A : Type) := {
  outcome : Res A;
  final : Store;
  emitted : list Event
}.
Arguments outcome {A} r.
Arguments final {A} r.
Arguments emitted {A} r.

Definition M (A : Type) : Type := Env → Store → Run A.

#[global] Instance M_ret : MRet M := λ A a _ s,
  {| outcome := Ok a; final := s; emitted := [] |}.

(** The events of a run, put after events that came before it. *)
Definition after {A} (before : list Event) (r : Run A) : Run A :=
  match r with
  | {| outcome := o; final := s; emitted := t |} =>
      {| outcome := o; final := s; emitted := before ++ t |}
  end.

(** The end of a method body: its last statement decides how the
    iteration goes on. *)
Definition finish {A B} (b : B) (r : Run A) : Run B :=
  match r with
  | {| outcome := Ok _; final := s; emitted := t |} =>
      {| outcome := Ok b; final := s; emitted := t |}
  | {| outcome := Raise e; final := s; emitted := t |} =>
      {| outcome := Raise e; final := s; emitted := t |}
  end.

#[global] Instance M_bind : MBind M := λ A B f m env s,
  match m env s with
  | {| outcome := Ok a; final := s1; emitted := t1 |} => after t1 (f a env s1)
  | {| outcome := Raise e; final := s1; emitted := t1 |} =>
      {| outcome := Raise e; final := s1; emitted := t1 |}
  end.

Definition raise {A} (e : Exn) : M A := λ _ s,
  {| outcome := Raise e; final := s; emitted := [] |}.

Definition lift {A} (r : Res A) : M A :=
  match r with Ok a => mret a | Raise e => raise e end.

(** The body of a [try]: its exception, if any, is handed to the
    [except] clauses that follow. *)
Definition attempt {A} (m : M A) : M (Res A) := λ env s,
  match m env s with
  | {| outcome := o; final := s1; emitted := t1 |} =>
      {| outcome := Ok o; final := s1; emitted := t1 |}
  end.

Definition emit (ev : Event) : M unit := λ _ s,
  {| outcome := Ok (); final := s; emitted := [ev] |}.

Definition ask : M Env := λ env s,
  {| outcome := Ok env; final := s; emitted := [] |}.

Definition get : M Store := λ _ s,
  {| outcome := Ok s; final := s; emitted := [] |}.

Definition put (s : Store) : M unit := λ _ _,
  {| outcome := Ok (); final := s; emitted := [] |}.

Definition sleep (seconds : Z) : M unit := emit (Sleep seconds).

Definition log (level : Level) (msg : string) (args : list string) : M unit :=
  emit (Log level msg args).

Definition requests_get (url : string) : M HttpResult :=
  emit (HttpGet url) ;; env ← ask; mret (http env url).

(** [req.json()] *)
Definition json (body : option Value) : Res Value :=
  match body with Some v => Ok v | None => Raise JSONDecodeError end.

(** The text that the f-strings of the three ledger methods build. *)
Definition py_bool (flag : Z) : string := if flag =? 0 then "False" else "True".

Definition sql_text (q : Sql) : string :=
  match q with
  | Select c => "SELECT * FROM chains WHERE chain_id='" +:+ c +:+ "'"
  | InsertOrReplace c h r =>
      "INSERT OR REPLACE into chains(chain_id, upgrade_height, is_reminder_sent) VALUES('"
      +:+ c +:+ "', " +:+ pretty h +:+ ", " +:+ py_bool r +:+ ")"
  | UpdateReminder c r =>
      "UPDATE chains SET is_reminder_sent=" +:+ py_bool r
      +:+ " WHERE chain_id='" +:+ c +:+ "'"
  end.

(** The chain id is pasted between single quotes: the text compares the
    key with the id, as the model does, when the id holds no single
    quote. *)
Definition quote_free (chain_id : string) : bool :=
  forallb (λ c, negb (Ascii.eqb c "'")) (list_ascii_of_string chain_id).


(** The effect of a statement on the table, as the watcher's connection
    reads it afterwards; for the statements of [sql_text] with a
    [quote_free] id and a height that [fits_int64]. *)
Definition apply_sql (q : Sql) (t : gmap string Row) : gmap string Row :=
  match q with
  | Select _ => t
  | InsertOrReplace c h r =>
      <[c := {| upgrade_height := h; is_reminder_sent := r |}]> t
  | UpdateReminder c r =>
      alter (λ row, {| upgrade_height := upgrade_height row;
                       is_reminder_sent := r |}) c t
  end.

Definition with_chains (f : gmap string Row → gmap string Row) (s : Store) : Store :=
  {| chains := f (chains s);
     last_checked_time := last_checked_time s;
     error_counter := error_counter s |}.

(** [cursor.execute(q)] followed by [db_conn.commit()].  A statement that
    raises leaves the table as it was.  A statement that executes changes
    what the watcher's connection reads from then on, also when the commit
    after it raises: the row stays in the connection's open transaction. *)
Definition execute_write (q : Sql) : M unit :=
  env ← ask;
  match write_fault env with
  | Some (AtExecute, e) =>
      emit (Execute q (Some e)) ;;
      raise (Sqlite e)
  | Some (AtCommit, e) =>
      emit (Execute q None) ;;
      s ← get; put (with_chains (apply_sql q) s) ;;
      raise (Sqlite e)
  | None =>
      emit (Execute q None) ;;
      s ← get; put (with_chains (apply_sql q) s)
  end.

(** [cursor.execute(q).fetchone()] for the [SELECT] on the key, on the
    watcher's connection (for a [quote_free] id, see [sql_text]). *)
Definition execute_select (chain_id : string) : M (option Row) :=
  env ← ask;
  emit (Execute (Select chain_id) (select_fault env)) ;;
  match select_fault env with
  | Some e => raise (Sqlite e)
  | None => s ← get; mret (chains s !! chain_id)
  end.

(** [webhook_client.send(...)] *)
Definition webhook_send (m : Message) : M unit :=
  env ← ask;
  emit (Send m) ;;
  if send_fault env then raise SlackError else mret ().

(** [last_checked_time.labels(chain_id=...).set(now)] *)
Definition checked (chain_id : string) (now : Z) (s : Store) : Store :=
  {| chains := chains s;
     last_checked_time := <[chain_id := now]> (last_checked_time s);
     error_counter := error_counter s |}.

Definition gauge_set (chain_id : string) : M unit :=
  env ← ask; s ← get; put (checked chain_id (clock env) s).

(** [error_counter.labels(chain_id=..., error=...).inc()] *)
Definition errors (s : Store) (chain_id error : string) : nat :=
  default 0%nat (error_counter s !! (chain_id, error)).

Definition counted (chain_id error : string) (s : Store) : Store :=
  {| chains := chains s;
     last_checked_time := last_checked_time s;
     error_counter :=
       <[(chain_id, error) := S (errors s chain_id error)]> (error_counter s) |}.

Definition counter_inc (chain_id error : string) : M unit :=
  s ← get; put (counted chain_id error s).

End Effects.

Import Effects.

(** ** The chain client: [fetch_upgrade_plan] and [fetch_block_height] *)

Module ChainClient.

(** The part of [fetch_upgrade_plan] after [requests.get]. *)
Definition plan_of_response (req : HttpResult) : Res Value :=
  match req with
  | NoResponse => Raise RequestException
  | Response status_code text body =>
      if negb (status_code =? 200) then Raise (UpgradeRequestFailed text)
      else
        j ← json body;
        present ← contains "plan" j;
        if negb present then Raise PlanNotInRequest
        else j' ← json body; getitem j' "plan"
  end.

Definition fetch_upgrade_plan (endpoint : string) : M Value :=
  req ← requests_get (endpoint +:+ "/cosmos/upgrade/v1beta1/current_plan");
  lift (plan_of_response req).

(** The part of [fetch_block_height] after [requests.get]. *)
Definition height_of_response (req : HttpResult) : Res Z :=
  match req with
  | NoResponse => Raise RequestException
  | Response status_code text body =>
      if negb (status_code =? 200) then Raise (BlockRequestFailed text)
      else
        j ← json body;
        present ← contains "result" j;
        if negb present then Raise BlockNotInRequest
        else
          j' ← json body;
          result ← getitem j' "result";
          sync_info ← getitem result "sync_info";
          h ← getitem sync_info "latest_block_height";
          int h
  end.

Definition fetch_block_height (endpoint : string) : M Z :=
  req ← requests_get (endpoint +:+ "/status");
  lift (height_of_response req).

End ChainClient.

Import ChainClient.

(** ** The watcher: [class ChainWatcher] *)

Module ChainWatcher.

(** Modelled from the spec: the loader of [config] is not part of
    [chain_watcher.py].  These are the entries that the watcher reads,
    those under [config["chains"][chain_id]] included: the entries are
    taken to be present, and the interval and the reminder threshold to
    be integers. *)
Record Config := {
  db_path : string;
  interval_seconds : Z;
  endpoint : string;
  rpc : string;
  reminder_diff_blocks : Z
}.

(** How an iteration of [while True] ends: it falls through or hits
    [continue], or it hits [return]. *)
Inductive Flow := Continue | Return.

(** How [monitor] stands when the answers of the outside run out. *)
Inductive Status := Running | Returned.

Section Methods.

(** [self.config] and [self.chain_id] *)
Variable config : Config.
Variable chain_id : string.

Definition get_db_upgrade : M (option Row) :=
  execute_select chain_id.

Definition update_db_upgrade (plan : Value) : M unit :=
  r ← attempt (
    h ← lift (getitem plan "height" ≫= int);
    execute_write (InsertOrReplace chain_id h 0));
  match r with
  | Ok _ => mret ()
  | Raise (Sqlite (OperationalError _)) =>
      log ERROR "failed to update database with new upgrade" [] ;;
      counter_inc chain_id "database_update_failed"
  | Raise e => raise e
  end.

Definition update_db_reminder : M unit :=
  r ← attempt (execute_write (UpdateReminder chain_id 1));
  match r with
  | Ok _ => mret ()
  | Raise (Sqlite (OperationalError e)) =>
      log ERROR ("failed to update database with new reminder, " +:+ e) [] ;;
      counter_inc chain_id "database_update_failed"
  | Raise e => raise e
  end.

(** The arguments of [send] are evaluated first: [plan['height']] for
    [text], then [plan['name']] and [plan['height']] for [blocks]. *)
Definition notify_slack (plan : Value) : M unit :=
  _ ← lift (getitem plan "height");
  name ← lift (getitem plan "name");
  height ← lift (getitem plan "height");
  webhook_send (Notice chain_id name height).

Definition remind_slack (plan : Value) (block : Z) : M unit :=
  remaining ← lift (h ← getitem plan "height" ≫= int; mret (h - block));
  name ← lift (getitem plan "name");
  height ← lift (getitem plan "height");
  webhook_send (Reminder chain_id name height remaining block).

(** Lines 94-113: the body of the [if] for an upgrade that is already
    tracked. *)
Definition tracked_upgrade (plan : Value) (existing_upgrade : Row) : M Flow :=
  r ← attempt (fetch_block_height (rpc config));
  match r with
  | Raise BlockNotInRequest =>
      log ERROR "request successful, but no block object in response" [] ;;
      counter_inc chain_id "block_not_in_request" ;;
      mret Return
  | Raise (BlockRequestFailed text) =>
      log ERROR "block request failed" [text] ;;
      counter_inc chain_id "block_request_failed" ;;
      mret Return
  | Raise e => raise e
  | Ok current_block =>
      (if (is_reminder_sent existing_upgrade =? 0)
          && (upgrade_height existing_upgrade - current_block
                <=? reminder_diff_blocks config)
       then
         log DEBUG ("upgrade time in less than "
                    +:+ pretty (reminder_diff_blocks config) +:+ " blocks") [] ;;
         remind_slack plan current_block ;;
         update_db_reminder
       else mret ()) ;;
      log DEBUG "no new upgrade plan" [] ;;
      mret Continue
  end.

(** Lines 115-116: a plan that is not tracked yet. *)
Definition new_upgrade (plan : Value) : M Flow :=
  notify_slack plan ;;
  update_db_upgrade plan ;;
  mret Continue.

(** Lines 86-116: what an iteration does with the plan it fetched. *)
Definition reconcile (plan : Value) : M Flow :=
  gauge_set chain_id ;;
  if negb (truthy plan) then
    log DEBUG "no current upgrade plan" [] ;;
    mret Continue
  else
    existing_upgrade ← get_db_upgrade;
    match existing_upgrade with
    | Some row =>
        height ← lift (getitem plan "height" ≫= int);
        if height <=? upgrade_height row
        then tracked_upgrade plan row
        else new_upgrade plan
    | None => new_upgrade plan
    end.

(** Lines 71-116: one iteration of [while True]. *)
Definition iteration : M Flow :=
  sleep (interval_seconds config) ;;
  r ← attempt (
    log DEBUG "fetching upgrade plans" [] ;;
    fetch_upgrade_plan (endpoint config));
  match r with
  | Raise PlanNotInRequest =>
      log ERROR "request successful, but no plan object in response" [] ;;
      counter_inc chain_id "plan_not_in_request" ;;
      mret Return
  | Raise (UpgradeRequestFailed text) =>
      log ERROR "upgrade plan request failed" [text] ;;
      counter_inc chain_id "upgrade_request_failed" ;;
      mret Return
  | Raise e => raise e
  | Ok plan => reconcile plan
  end.

(** [while True]: one answer of the outside per iteration.  The loop
    stops at a [return] or at an exception; when the answers run out
    it is still [Running]. *)
Fixpoint while_true (envs : list Env) (s : Store) : Run Status :=
  match envs with
  | [] => {| outcome := Ok Running; final := s; emitted := [] |}
  | env :: rest =>
      match iteration env s with
      | {| outcome := Ok Continue; final := s1; emitted := t1 |} =>
          after t1 (while_true rest s1)
      | {| outcome := Ok Return; final := s1; emitted := t1 |} =>
          {| outcome := Ok Returned; final := s1; emitted := t1 |}
      | {| outcome := Raise e; final := s1; emitted := t1 |} =>
          {| outcome := Raise e; final := s1; emitted := t1 |}
      end
  end.

(** [monitor]: the connection to the table [db], a fresh gauge and
    counter, then the loop. *)
Definition monitor (db : gmap string Row) (envs : list Env) : Run Status :=
  after [Connect (db_path config); Log DEBUG "starting watcher loop" []]
    (while_true envs
       {| chains := db; last_checked_time := ∅; error_counter := ∅ |}).

End Methods.

End ChainWatcher.

Import ChainWatcher.

(** ** Vocabulary of the properties *)

(** What the two fetches of an iteration yield, read off the answers of
    the outside. *)
Definition plan_url (config : Config) : string :=
  endpoint config +:+ "/cosmos/upgrade/v1beta1/current_plan".

Definition status_url (config : Config) : string :=
  rpc config +:+ "/status".

Definition observed_plan (config : Config) (env : Env) : Res Value :=
  plan_of_response (http env (plan_url config)).

Definition observed_block (config : Config) (env : Env) : Res Z :=
  height_of_response (http env (status_url config)).

(** [int(plan["height"])] *)
Definition plan_height (plan : Value) : Res Z :=
  getitem plan "height" ≫= int.

(** [req.json()['result']['sync_info']['latest_block_height']] *)
Definition latest_block_height (j : Value) : Res Value :=
  result ← getitem j "result";
  sync_info ← getitem result "sync_info";
  getitem sync_info "latest_block_height".

(** Kinds of events. *)
Definition is_notice (ev : Event) : bool :=
  match ev with Send (Notice _ _ _) => true | _ => false end.

Definition is_reminder (ev : Event) : bool :=
  match ev with Send (Reminder _ _ _ _ _) => true | _ => false end.

Definition is_alert (ev : Event) : bool :=
  match ev with Send _ => true | _ => false end.

Definition is_upsert (ev : Event) : bool :=
  match ev with Execute (InsertOrReplace _ _ _) _ => true | _ => false end.

(** A committed upsert for [chain_id] of a height above [old]. *)
Definition records_new_height (chain_id : string) (old : Z) (ev : Event) : bool :=
  match ev with
  | Execute (InsertOrReplace c h _) None => String.eqb c chain_id && (old <? h)
  | _ => false
  end.

Definition is_mark_reminder (ev : Event) : bool :=
  match ev with Execute (UpdateReminder _ _) _ => true | _ => false end.

Definition is_write (ev : Event) : bool :=
  is_upsert ev || is_mark_reminder ev.

Definition is_error_log (ev : Event) : bool :=
  match ev with Log ERROR _ _ => true | _ => false end.

Definition is_sleep (ev : Event) : bool :=
  match ev with Sleep _ => true | _ => false end.

Definition is_plan_fetch (config : Config) (ev : Event) : bool :=
  match ev with HttpGet url => String.eqb url (plan_url config) | _ => false end.

(** The exceptions of subscripting and of [int]. *)
Definition raised_by_builtin (e : Exn) : bool :=
  match e with
  | KeyError _ | TypeError | ValueError | OverflowError => true
  | _ => false
  end.

(** The four exception classes that [chain_watcher.py] declares. *)
Definition is_own_exception (e : Exn) : bool :=
  match e with
  | UpgradeRequestFailed _ | PlanNotInRequest
  | BlockNotInRequest | BlockRequestFailed _ => true
  | _ => false
  end.

(** How many events of a kind a run emitted. *)
Fixpoint count (kind : Event → bool) (t : list Event) : nat :=
  match t with
  | [] => 0%nat
  | ev :: t' => ((if kind ev then 1 else 0) + count kind t')%nat
  end.

(** The effect of [update_db_reminder] on a record. *)
Definition marked (row : Row) : Row :=
  {| upgrade_height := upgrade_height row; is_reminder_sent := 1 |}.

(** The table has no record for the chain, or one below height [h]: the
    cases in which line 93 lets a plan of height [h] through. *)
Definition untracked (chain_id : string) (h : Z) (s : Store) : Prop :=
  ∀ row, chains s !! chain_id = Some row → upgrade_height row < h.

(** The label under which [monitor] counts a failed fetch. *)
Definition error_label (e : Exn) : string :=
  match e with
  | PlanNotInRequest => "plan_not_in_request"
  | UpgradeRequestFailed _ => "upgrade_request_failed"
  | BlockNotInRequest => "block_not_in_request"
  | BlockRequestFailed _ => "block_request_failed"
  | _ => ""
  end.

(** ** A concrete deployment, for the examples *)

Module Scenario.

Definition config : Config :=
  {| db_path := "watcher.db"; interval_seconds := 60;
     endpoint := "http://rest"; rpc := "http://rpc";
     reminder_diff_blocks := 100 |}.

Definition chain_id : string := "cosmoshub-4".

Definition plan (name : string) (height : Value) : Value :=
  VDict [("name", VStr name); ("height", height)].

Definition plan_reply (p : Value) : HttpResult :=
  Response 200 "" (Some (VDict [("plan", p)])).

Definition status_reply (height : string) : HttpResult :=
  Response 200 ""
    (Some (VDict [("result",
       VDict [("sync_info", VDict [("latest_block_height", VStr height)])])])).

(** A node that answers both queries, a table and a sink that work. *)
Definition world (plan status : HttpResult) : Env :=
  {| http := λ url,
       if String.eqb url "http://rest/cosmos/upgrade/v1beta1/current_plan" then plan
       else if String.eqb url "http://rpc/status" then status
       else NoResponse;
     clock := 1700000000;
     select_fault := None; write_fault := None; send_fault := false |}.

Definition sink_down (env : Env) : Env :=
  {| http := http env; clock := clock env;
     select_fault := select_fault env; write_fault := write_fault env;
     send_fault := true |}.

Definition store (db : gmap string Row) : Store :=
  {| chains := db; last_checked_time := ∅; error_counter := ∅ |}.

(** The same answers, with a table whose reads, writes or commits
    raise. *)
Definition write_fails (e : SqliteError) (env : Env) : Env :=
  {| http := http env; clock := clock env;
     select_fault := select_fault env; write_fault := Some (AtExecute, e);
     send_fault := send_fault env |}.

Definition commit_fails (e : SqliteError) (env : Env) : Env :=
  {| http := http env; clock := clock env;
     select_fault := select_fault env; write_fault := Some (AtCommit, e);
     send_fault := send_fault env |}.

Definition select_fails (e : SqliteError) (env : Env) : Env :=
  {| http := http env; clock := clock env;
     select_fault := Some e; write_fault := write_fault env;
     send_fault := send_fault env |}.

Definition tracking (height reminder : Z) : gmap string Row :=
  {[ chain_id := {| upgrade_height := height; is_reminder_sent := reminder |} ]}.

End Scenario.

(** ** The model on concrete inputs *)

Example int_of_str_accepts :
  int_of_str "5000" = Some 5000 ∧ int_of_str " -12 " = Some (-12)
  ∧ int_of_str "+5_000" = Some 5000.
Proof. repeat split. Qed.

Example int_of_str_rejects :
  int_of_str "" = None ∧ int_of_str "soon" = None ∧ int_of_str "5 000" = None
  ∧ int_of_str "1__0" = None ∧ int_of_str "0x10" = None.
Proof. repeat split. Qed.

(** Only tab to carriage return and the space are stripped: a file
    separator (28) next to the digits makes the string ill-formed. *)
Example int_of_str_keeps_separators :
  int_of_str (String (ascii_of_nat 9) "5000") = Some 5000
  ∧ int_of_str (String (ascii_of_nat 28) "5000") = None.
Proof. repeat split. Qed.

(** A statement that executes is read back even when its commit raised. *)
Example failed_commit_is_read_back :
  let env := Scenario.commit_fails (OperationalError "database is locked")
               (Scenario.world (Scenario.plan_reply (Scenario.plan "v2" (VStr "5000")))
                               NoResponse) in
  let r := iteration Scenario.config Scenario.chain_id env (Scenario.store ∅) in
  outcome r = Ok Continue
  ∧ chains (final r) !! Scenario.chain_id
    = Some {| upgrade_height := 5000; is_reminder_sent := 0 |}
  ∧ errors (final r) Scenario.chain_id "database_update_failed" = 1%nat.
Proof. repeat split. Qed.

(** The first plan seen for a chain: one notice, then the record. *)
Example first_plan_is_recorded :
  let env := Scenario.world (Scenario.plan_reply (Scenario.plan "v2" (VStr "5000")))
                            NoResponse in
  let r := iteration Scenario.config Scenario.chain_id env (Scenario.store ∅) in
  emitted r =
    [Sleep 60; Log DEBUG "fetching upgrade plans" [];
     HttpGet "http://rest/cosmos/upgrade/v1beta1/current_plan";
     Execute (Select "cosmoshub-4") None;
     Send (Notice "cosmoshub-4" (VStr "v2") (VStr "5000"));
     Execute (InsertOrReplace "cosmoshub-4" 5000 0) None]
  ∧ chains (final r) !! Scenario.chain_id
    = Some {| upgrade_height := 5000; is_reminder_sent := 0 |}.
Proof. split; reflexivity. Qed.

(** The same plan with the chain at 4950: one reminder, then the mark. *)
Example reminder_is_marked :
  let env := Scenario.world (Scenario.plan_reply (Scenario.plan "v2" (VStr "5000")))
                            (Scenario.status_reply "4950") in
  let r := iteration Scenario.config Scenario.chain_id env
             (Scenario.store (Scenario.tracking 5000 0)) in
  filter (λ ev, is_alert ev = true) (emitted r)
  = [Send (Reminder "cosmoshub-4" (VStr "v2") (VStr "5000") 50 4950)]
  ∧ chains (final r) !! Scenario.chain_id
    = Some {| upgrade_height := 5000; is_reminder_sent := 1 |}.
Proof. split; reflexivity. Qed.

(** An empty plan: the gauge is set and nothing else happens. *)
Example no_plan_does_nothing :
  let env := Scenario.world (Scenario.plan_reply VNone) NoResponse in
  let r := iteration Scenario.config Scenario.chain_id env
             (Scenario.store (Scenario.tracking 5000 1)) in
  outcome r = Ok Continue
  ∧ existsb is_alert (emitted r) = false
  ∧ existsb is_write (emitted r) = false
  ∧ last_checked_time (final r) !! Scenario.chain_id = Some 1700000000.
Proof. repeat split. Qed.

(** ** Running the methods: each method as a function of the answers *)

Ltac run_monad :=
  unfold mbind, M_bind, mret, M_ret, attempt, lift, raise, emit, ask, get, put,
    log, sleep, after; cbn.

Lemma plan_height_raises plan e :
  plan_height plan = Raise e →
  e = KeyError "height" ∨ e = TypeError ∨ e = ValueError ∨ e = OverflowError.
Proof.
  unfold plan_height, getitem.
  destruct plan as [| | | | | |kvs]; cbn; try (intros [= <-]; auto).
  destruct (dict_get "height" kvs) as [hv|]; cbn; [|intros [= <-]; auto].
  destruct hv as [|b|z|[m x|n|]|str| |]; cbn; try (intros [= <-]; auto); try discriminate.
  destruct (int_of_str str); [discriminate | intros [= <-]; auto].
Qed.

Lemma fetch_upgrade_plan_run endpoint env s :
  fetch_upgrade_plan endpoint env s =
  {| outcome := plan_of_response
                  (http env (endpoint +:+ "/cosmos/upgrade/v1beta1/current_plan"));
     final := s;
     emitted := [HttpGet (endpoint +:+ "/cosmos/upgrade/v1beta1/current_plan")] |}.
Proof.
  unfold fetch_upgrade_plan, requests_get. run_monad.
  destruct (plan_of_response _); reflexivity.
Qed.

Lemma fetch_block_height_run endpoint env s :
  fetch_block_height endpoint env s =
  {| outcome := height_of_response (http env (endpoint +:+ "/status"));
     final := s;
     emitted := [HttpGet (endpoint +:+ "/status")] |}.
Proof.
  unfold fetch_block_height, requests_get. run_monad.
  destruct (height_of_response _); reflexivity.
Qed.

Lemma notify_slack_run cid plan env s :
  notify_slack cid plan env s =
  match getitem plan "height", getitem plan "name" with
  | Ok hv, Ok nv =>
      {| outcome := if send_fault env then Raise SlackError else Ok ();
         final := s; emitted := [Send (Notice cid nv hv)] |}
  | Ok _, Raise e | Raise e, _ => {| outcome := Raise e; final := s; emitted := [] |}
  end.
Proof.
  unfold notify_slack, webhook_send. run_monad.
  destruct (getitem plan "height"); cbn; [|reflexivity].
  destruct (getitem plan "name"); cbn; [|reflexivity].
  destruct (send_fault env); reflexivity.
Qed.

Lemma remind_slack_run cid plan block env s :
  remind_slack cid plan block env s =
  match plan_height plan, getitem plan "name", getitem plan "height" with
  | Ok h, Ok nv, Ok hv =>
      {| outcome := if send_fault env then Raise SlackError else Ok ();
         final := s; emitted := [Send (Reminder cid nv hv (h - block) block)] |}
  | Ok _, Ok _, Raise e | Ok _, Raise e, _ | Raise e, _, _ =>
      {| outcome := Raise e; final := s; emitted := [] |}
  end.
Proof.
  unfold remind_slack, webhook_send, plan_height. run_monad.
  destruct (getitem plan "height") as [hv|]; cbn; [|reflexivity].
  destruct (int hv); cbn; [|reflexivity].
  destruct (getitem plan "name"); cbn; [|reflexivity].
  destruct (send_fault env); reflexivity.
Qed.

Lemma update_db_upgrade_run cid plan env s :
  update_db_upgrade cid plan env s =
  match plan_height plan with
  | Raise e => {| outcome := Raise e; final := s; emitted := [] |}
  | Ok h =>
      let q := InsertOrReplace cid h 0 in
      match write_fault env with
      | None =>
          {| outcome := Ok (); final := with_chains (apply_sql q) s;
             emitted := [Execute q None] |}
      | Some (AtExecute, OperationalError m) =>
          {| outcome := Ok (); final := counted cid "database_update_failed" s;
             emitted := [Execute q (Some (OperationalError m));
                         Log ERROR "failed to update database with new upgrade" []] |}
      | Some (AtExecute, DatabaseError m) =>
          {| outcome := Raise (Sqlite (DatabaseError m)); final := s;
             emitted := [Execute q (Some (DatabaseError m))] |}
      | Some (AtCommit, OperationalError m) =>
          {| outcome := Ok ();
             final := counted cid "database_update_failed"
                        (with_chains (apply_sql q) s);
             emitted := [Execute q None;
                         Log ERROR "failed to update database with new upgrade" []] |}
      | Some (AtCommit, DatabaseError m) =>
          {| outcome := Raise (Sqlite (DatabaseError m));
             final := with_chains (apply_sql q) s;
             emitted := [Execute q None] |}
      end
  end.
Proof.
  destruct (plan_height plan) as [h|e] eqn:Hh.
  - unfold update_db_upgrade, execute_write, counter_inc. fold (plan_height plan).
    rewrite Hh. run_monad.
    destruct (write_fault env) as [[[] [m|m]]|]; reflexivity.
  - unfold update_db_upgrade. fold (plan_height plan). rewrite Hh. run_monad.
    apply plan_height_raises in Hh as [-> | [-> | [-> | ->]]]; reflexivity.
Qed.

Lemma update_db_reminder_run cid env s :
  update_db_reminder cid env s =
  let q := UpdateReminder cid 1 in
  match write_fault env with
  | None =>
      {| outcome := Ok (); final := with_chains (apply_sql q) s;
         emitted := [Execute q None] |}
  | Some (AtExecute, OperationalError m) =>
      {| outcome := Ok (); final := counted cid "database_update_failed" s;
         emitted := [Execute q (Some (OperationalError m));
                     Log ERROR ("failed to update database with new reminder, " +:+ m) []] |}
  | Some (AtExecute, DatabaseError m) =>
      {| outcome := Raise (Sqlite (DatabaseError m)); final := s;
         emitted := [Execute q (Some (DatabaseError m))] |}
  | Some (AtCommit, OperationalError m) =>
      {| outcome := Ok ();
         final := counted cid "database_update_failed" (with_chains (apply_sql q) s);
         emitted := [Execute q None;
                     Log ERROR ("failed to update database with new reminder, " +:+ m) []] |}
  | Some (AtCommit, DatabaseError m) =>
      {| outcome := Raise (Sqlite (DatabaseError m));
         final := with_chains (apply_sql q) s;
         emitted := [Execute q None] |}
  end.
Proof.
  unfold update_db_reminder, execute_write, counter_inc. run_monad.
  destruct (write_fault env) as [[[] [m|m]]|]; reflexivity.
Qed.

Lemma new_upgrade_run cid plan env s :
  new_upgrade cid plan env s =
  match getitem plan "height", getitem plan "name" with
  | Ok hv, Ok nv =>
      after [Send (Notice cid nv hv)]
        (if send_fault env
         then {| outcome := Raise SlackError; final := s; emitted := [] |}
         else finish Continue (update_db_upgrade cid plan env s))
  | Ok _, Raise e | Raise e, _ => {| outcome := Raise e; final := s; emitted := [] |}
  end.
Proof.
  unfold new_upgrade. unfold mbind at 1 2, M_bind.
  rewrite notify_slack_run.
  destruct (getitem plan "height"); [|reflexivity].
  destruct (getitem plan "name"); [|reflexivity].
  destruct (send_fault env); [reflexivity|].
  destruct (update_db_upgrade cid plan env s) as [[[]|e] s2 t2]; cbn;
    rewrite ?app_nil_r; reflexivity.
Qed.

Lemma tracked_upgrade_run config cid plan row env s :
  tracked_upgrade config cid plan row env s =
  after [HttpGet (status_url config)]
    match observed_block config env with
    | Ok current_block =>
        if (is_reminder_sent row =? 0)
           && (upgrade_height row - current_block <=? reminder_diff_blocks config)
        then
          after [Log DEBUG ("upgrade time in less than "
                            +:+ pretty (reminder_diff_blocks config) +:+ " blocks") []]
            match remind_slack cid plan current_block env s with
            | {| outcome := Ok _; final := s1; emitted := t1 |} =>
                after t1
                  match update_db_reminder cid env s1 with
                  | {| outcome := Ok _; final := s2; emitted := t2 |} =>
                      {| outcome := Ok Continue; final := s2;
                         emitted := t2 ++ [Log DEBUG "no new upgrade plan" []] |}
                  | {| outcome := Raise e; final := s2; emitted := t2 |} =>
                      {| outcome := Raise e; final := s2; emitted := t2 |}
                  end
            | {| outcome := Raise e; final := s1; emitted := t1 |} =>
                {| outcome := Raise e; final := s1; emitted := t1 |}
            end
        else
          {| outcome := Ok Continue; final := s;
             emitted := [Log DEBUG "no new upgrade plan" []] |}
    | Raise BlockNotInRequest =>
        {| outcome := Ok Return; final := counted cid "block_not_in_request" s;
           emitted := [Log ERROR "request successful, but no block object in response" []] |}
    | Raise (BlockRequestFailed text) =>
        {| outcome := Ok Return; final := counted cid "block_request_failed" s;
           emitted := [Log ERROR "block request failed" [text]] |}
    | Raise e => {| outcome := Raise e; final := s; emitted := [] |}
    end.
Proof.
  unfold tracked_upgrade, observed_block, status_url.
  unfold mbind at 1, M_bind. unfold attempt. rewrite fetch_block_height_run.
  destruct (height_of_response _) as [cb|e].
  - destruct ((is_reminder_sent row =? 0) && _).
    + unfold mbind, M_bind, mret, M_ret, log, emit.
      cbn -[remind_slack update_db_reminder pretty String.app].
      destruct (remind_slack _ _ _ _ _) as [[[]|e] s1 t1]; [|reflexivity].
      cbn -[update_db_reminder pretty String.app].
      destruct (update_db_reminder _ _ _) as [[[]|e] s2 t2]; cbn;
        rewrite <- ?app_assoc; reflexivity.
    + reflexivity.
  - destruct e; reflexivity.
Qed.

Lemma after_after {A} (t1 t2 : list Event) (r : Run A) :
  after t1 (after t2 r) = after (t1 ++ t2) r.
Proof. destruct r; cbn. by rewrite app_assoc. Qed.

Lemma reconcile_run config cid plan env s :
  reconcile config cid plan env s =
  let s' := checked cid (clock env) s in
  if negb (truthy plan) then
    {| outcome := Ok Continue; final := s';
       emitted := [Log DEBUG "no current upgrade plan" []] |}
  else
    after [Execute (Select cid) (select_fault env)]
      match select_fault env with
      | Some e => {| outcome := Raise (Sqlite e); final := s'; emitted := [] |}
      | None =>
          match chains s !! cid with
          | Some row =>
              match plan_height plan with
              | Ok h =>
                  if h <=? upgrade_height row
                  then tracked_upgrade config cid plan row env s'
                  else new_upgrade cid plan env s'
              | Raise e => {| outcome := Raise e; final := s'; emitted := [] |}
              end
          | None => new_upgrade cid plan env s'
          end
      end.
Proof.
  unfold reconcile, get_db_upgrade, execute_select, gauge_set, plan_height.
  destruct (truthy plan); [|reflexivity].
  run_monad. destruct (select_fault env) as [e|]; [reflexivity|]. cbn.
  destruct (chains s !! cid) as [row|]; cbn;
    [|by destruct (new_upgrade _ _ _ _)].
  destruct (Res_bind _ _ _ _) as [h|e]; cbn; [|reflexivity].
  destruct (h <=? upgrade_height row);
    [by destruct (tracked_upgrade _ _ _ _ _ _) | by destruct (new_upgrade _ _ _ _)].
Qed.

Lemma iteration_run config cid env s :
  iteration config cid env s =
  after [Sleep (interval_seconds config); Log DEBUG "fetching upgrade plans" [];
         HttpGet (plan_url config)]
    match observed_plan config env with
    | Ok plan => reconcile config cid plan env s
    | Raise PlanNotInRequest =>
        {| outcome := Ok Return; final := counted cid "plan_not_in_request" s;
           emitted := [Log ERROR "request successful, but no plan object in response" []] |}
    | Raise (UpgradeRequestFailed text) =>
        {| outcome := Ok Return; final := counted cid "upgrade_request_failed" s;
           emitted := [Log ERROR "upgrade plan request failed" [text]] |}
    | Raise e => {| outcome := Raise e; final := s; emitted := [] |}
    end.
Proof.
  unfold iteration, observed_plan, plan_url.
  unfold mbind, M_bind, mret, M_ret, sleep, log, emit, attempt, counter_inc,
    get, put, raise.
  cbn -[fetch_upgrade_plan reconcile String.app].
  rewrite fetch_upgrade_plan_run. cbn -[reconcile String.app].
  destruct (plan_of_response _) as [plan|e].
  - by destruct (reconcile _ _ _ _ _).
  - destruct e; reflexivity.
Qed.

Lemma while_true_cons config cid env rest s :
  while_true config cid (env :: rest) s =
  match iteration config cid env s with
  | {| outcome := Ok Continue; final := s1; emitted := t1 |} =>
      after t1 (while_true config cid rest s1)
  | {| outcome := Ok Return; final := s1; emitted := t1 |} =>
      {| outcome := Ok Returned; final := s1; emitted := t1 |}
  | {| outcome := Raise e; final := s1; emitted := t1 |} =>
      {| outcome := Raise e; final := s1; emitted := t1 |}
  end.
Proof. reflexivity. Qed.

Lemma errors_counted cid label s :
  errors (counted cid label s) cid label = S (errors s cid label).
Proof. unfold errors at 1, counted; cbn. by rewrite lookup_insert_eq. Qed.

(** ** The chain client *)

Lemma getitem_raises v k e :
  getitem v k = Raise e → raised_by_builtin e = true.
Proof.
  destruct v as [| | | | | |kvs]; cbn; try (by intros [= <-]).
  destruct (dict_get k kvs); [discriminate | by intros [= <-]].
Qed.

Lemma int_raises v e : int v = Raise e → raised_by_builtin e = true.
Proof.
  destruct v as [|b|z|[m x|n|]|str| |]; cbn; try (by intros [= <-]); try discriminate.
  destruct (int_of_str str); [discriminate | by intros [= <-]].
Qed.

Lemma contains_raises k v e : contains k v = Raise e → e = TypeError.
Proof. destruct v; cbn; try discriminate; by intros [= <-]. Qed.

Lemma block_path_raises j e :
  latest_block_height j ≫= int = Raise e → raised_by_builtin e = true.
Proof.
  unfold latest_block_height.
  destruct (getitem j "result") as [res|e1] eqn:H1; cbn;
    [|intros [= <-]; eauto using getitem_raises].
  destruct (getitem res "sync_info") as [si|e2] eqn:H2; cbn;
    [|intros [= <-]; eauto using getitem_raises].
  destruct (getitem si "latest_block_height") as [h|e3] eqn:H3; cbn;
    [|intros [= <-]; eauto using getitem_raises].
  apply int_raises.
Qed.

Lemma getitem_contains j k v : getitem j k = Ok v → contains k j = Ok true.
Proof.
  destruct j as [| | | | | |kvs]; cbn; try discriminate.
  destruct (dict_get k kvs); [reflexivity | discriminate].
Qed.

Lemma height_of_response_200 text body :
  height_of_response (Response 200 text body) =
  match body with
  | Some j =>
      match contains "result" j with
      | Ok true => latest_block_height j ≫= int
      | Ok false => Raise BlockNotInRequest
      | Raise e => Raise e
      end
  | None => Raise JSONDecodeError
  end.
Proof.
  unfold height_of_response, latest_block_height. cbn.
  destruct body as [j|]; cbn; try reflexivity.
  destruct (contains "result" j) as [[]|]; cbn; try reflexivity.
  destruct (getitem j "result") as [res|]; cbn; try reflexivity.
  destruct (getitem res "sync_info") as [si|]; reflexivity.
Qed.

Lemma height_of_response_not_200 status text body :
  status ≠ 200 →
  height_of_response (Response status text body) = Raise (BlockRequestFailed text).
Proof.
  intros Hs. unfold height_of_response.
  by destruct (Z.eqb_spec status 200).
Qed.

Ltac break_iffs :=
  repeat split; intros;
  repeat match goal with
    | H : ∃ _, _ |- _ => destruct H
    | H : _ ∧ _ |- _ => destruct H
    end;
  simplify_eq; try done; try congruence.

Ltac path_needs_result Hpath :=
  match goal with
  | H : latest_block_height _ ≫= int = Ok _ |- _ => apply Hpath in H; discriminate
  end.

(** C7, as the code has it.  [fetch_block_height] raises
    [BlockRequestFailed] exactly when a response arrives whose status code
    is not 200, and [BlockNotInRequest] exactly when the status code is 200
    and the parsed body reports that it has no ["result"] at its top level.
    It returns [z] exactly when the status code is 200 and
    [int(body['result']['sync_info']['latest_block_height'])] is [z].  A
    request that gets no response raises the transport's own exception. *)
Theorem fetch_block_height_outcomes endpoint env s :
  let req := http env (endpoint +:+ "/status") in
  let r := fetch_block_height endpoint env s in
  (∀ text, outcome r = Raise (BlockRequestFailed text) ↔
           ∃ status body, req = Response status text body ∧ status ≠ 200)
  ∧ (outcome r = Raise BlockNotInRequest ↔
     ∃ text j, req = Response 200 text (Some j) ∧ contains "result" j = Ok false)
  ∧ (∀ z, outcome r = Ok z ↔
          ∃ text j, req = Response 200 text (Some j)
                    ∧ latest_block_height j ≫= int = Ok z)
  ∧ (outcome r = Raise RequestException ↔ req = NoResponse).
Proof.
  cbn zeta. rewrite fetch_block_height_run. cbn [outcome].
  destruct (http env _) as [|status text body]; [by break_iffs|].
  destruct (decide (status = 200)) as [->|Hne].
  - rewrite height_of_response_200.
    destruct body as [j|]; [|by break_iffs].
    assert (Hpath : ∀ z, latest_block_height j ≫= int = Ok z →
                         contains "result" j = Ok true).
    { intros z Hz. destruct (getitem j "result") as [res|] eqn:Hres.
      - by apply getitem_contains in Hres.
      - unfold latest_block_height in Hz. by rewrite Hres in Hz. }
    destruct (contains "result" j) as [[]|e] eqn:Hc.
    + destruct (latest_block_height j ≫= int) as [z|e] eqn:Hp.
      * break_iffs; eauto.
      * pose proof (block_path_raises _ _ Hp) as Hb. break_iffs.
    + break_iffs; eauto; path_needs_result Hpath.
    + pose proof (contains_raises _ _ _ Hc) as ->. break_iffs; path_needs_result Hpath.
  - rewrite height_of_response_not_200 by done. break_iffs; eauto.
Qed.

(** C7 as stated fails.  A 200 response whose ["result"] has no
    ["sync_info"] lacks the nested field, yet the fetch raises neither of
    the two errors of the contract nor returns an integer: the [KeyError]
    of the subscript escapes. *)
Lemma fetch_block_height_nested_field_missing :
  let body := VDict [("result", VDict [])] in
  let env := Scenario.world NoResponse (Response 200 "" (Some body)) in
  let r := fetch_block_height (rpc Scenario.config) env (Scenario.store ∅) in
  latest_block_height body = Raise (KeyError "sync_info")
  ∧ outcome r = Raise (KeyError "sync_info")
  ∧ outcome r ≠ Raise BlockNotInRequest
  ∧ (∀ text, outcome r ≠ Raise (BlockRequestFailed text))
  ∧ (∀ z, outcome r ≠ Ok z).
Proof. cbn. repeat split; intros; discriminate. Qed.

(** ** One iteration of the loop *)

(** C6.  When the plan fetch of an iteration raises [PlanNotInRequest] or
    [UpgradeRequestFailed], the iteration logs one error, increments the
    error counter under the chain id and the label of that error, and
    returns from [monitor]: the loop ends there, whatever answers would
    follow.  The table is left as it was, no write is executed and no alert
    is sent. *)
Theorem plan_fetch_failure_halts config cid env s e :
  observed_plan config env = Raise e →
  e = PlanNotInRequest ∨ (∃ text, e = UpgradeRequestFailed text) →
  let r := iteration config cid env s in
  outcome r = Ok Return
  ∧ (∃ msg args,
       emitted r = [Sleep (interval_seconds config);
                    Log DEBUG "fetching upgrade plans" [];
                    HttpGet (plan_url config);
                    Log ERROR msg args])
  ∧ final r = counted cid (error_label e) s
  ∧ errors (final r) cid (error_label e) = S (errors s cid (error_label e))
  ∧ chains (final r) = chains s
  ∧ existsb is_write (emitted r) = false
  ∧ existsb is_alert (emitted r) = false
  ∧ ∀ rest, while_true config cid (env :: rest) s =
            {| outcome := Ok Returned; final := final r; emitted := emitted r |}.
Proof.
  intros Hplan He r. subst r.
  assert (Hrun : ∃ msg args,
    iteration config cid env s =
    {| outcome := Ok Return; final := counted cid (error_label e) s;
       emitted := [Sleep (interval_seconds config);
                   Log DEBUG "fetching upgrade plans" [];
                   HttpGet (plan_url config); Log ERROR msg args] |}).
  { rewrite iteration_run, Hplan.
    destruct He as [-> | [text ->]]; cbn; eauto. }
  destruct Hrun as (msg & args & Hrun).
  assert (Hloop : ∀ rest, while_true config cid (env :: rest) s =
            {| outcome := Ok Returned; final := counted cid (error_label e) s;
               emitted := emitted (iteration config cid env s) |}).
  { intros rest. by rewrite while_true_cons, Hrun. }
  rewrite Hrun in *. cbn [outcome final emitted] in *. rewrite errors_counted.
  repeat split; eauto.
Qed.

Lemma plan_fetch_failure_halts_witness :
  let env := Scenario.world (Response 200 "" (Some (VDict []))) NoResponse in
  let r := iteration Scenario.config Scenario.chain_id env (Scenario.store ∅) in
  outcome r = Ok Return
  ∧ errors (final r) Scenario.chain_id "plan_not_in_request" = 1%nat.
Proof.
  pose proof (plan_fetch_failure_halts Scenario.config Scenario.chain_id
                (Scenario.world (Response 200 "" (Some (VDict []))) NoResponse)
                (Scenario.store ∅) PlanNotInRequest eq_refl (or_introl eq_refl))
    as (Hout & _ & _ & Herr & _).
  split; [exact Hout | exact Herr].
Defined.

(** C9, as the code has it.  Every iteration begins with the sleep of the
    configured interval and fetches the plan after it; so after [monitor]
    starts, a sleep comes before the first plan fetch. *)
Theorem sleep_precedes_plan_fetch config cid :
  (∀ env s, ∃ rest,
     emitted (iteration config cid env s) =
     Sleep (interval_seconds config)
     :: Log DEBUG "fetching upgrade plans" []
     :: HttpGet (plan_url config) :: rest)
  ∧ (∀ db env envs, ∃ rest,
       emitted (monitor config cid db (env :: envs)) =
       Connect (db_path config)
       :: Log DEBUG "starting watcher loop" []
       :: Sleep (interval_seconds config)
       :: Log DEBUG "fetching upgrade plans" []
       :: HttpGet (plan_url config) :: rest).
Proof.
  assert (Hiter : ∀ env s, ∃ rest,
     emitted (iteration config cid env s) =
     Sleep (interval_seconds config)
     :: Log DEBUG "fetching upgrade plans" []
     :: HttpGet (plan_url config) :: rest).
  { intros env s. rewrite iteration_run.
    destruct (match observed_plan config env with Ok _ => _ | Raise _ => _ end)
      as [o s1 t1]. cbn. eauto. }
  split; [exact Hiter|].
  intros db env envs. unfold monitor. rewrite while_true_cons.
  destruct (Hiter env {| chains := db; last_checked_time := ∅; error_counter := ∅ |})
    as [rest Hrest].
  destruct (iteration _ _ _ _) as [[[]|e] s1 t1]; cbn in *; subst t1; cbn; eauto.
  destruct (while_true _ _ _ _) as [o s2 t2]; cbn. eauto.
Qed.

(** C9 as stated fails.  In a run of [monitor] over one iteration the only
    sleep is emitted before the plan fetch, not after it. *)
Lemma sleep_comes_before_first_fetch :
  let env := Scenario.world (Scenario.plan_reply VNone) NoResponse in
  let r := monitor Scenario.config Scenario.chain_id ∅ [env] in
  ∃ pre post,
    emitted r = pre ++ Sleep 60 :: post
    ∧ existsb (is_plan_fetch Scenario.config) pre = false
    ∧ existsb (is_plan_fetch Scenario.config) post = true
    ∧ existsb is_sleep post = false.
Proof.
  exists [Connect "watcher.db"; Log DEBUG "starting watcher loop" []].
  eexists. split; [reflexivity|]. by vm_compute.
Qed.

(** C5.  A committed [update_db_upgrade] leaves, under the chain id, the
    record with the new height and [is_reminder_sent] = 0, whatever record
    was there before, and touches no other chain's record. *)
Theorem upsert_resets_reminder cid plan h env s :
  plan_height plan = Ok h →
  write_fault env = None →
  let r := update_db_upgrade cid plan env s in
  outcome r = Ok ()
  ∧ emitted r = [Execute (InsertOrReplace cid h 0) None]
  ∧ chains (final r) !! cid = Some {| upgrade_height := h; is_reminder_sent := 0 |}
  ∧ ∀ c, c ≠ cid → chains (final r) !! c = chains s !! c.
Proof.
  intros Hh Hw r. subst r. rewrite update_db_upgrade_run, Hh, Hw. cbn.
  repeat split.
  - apply lookup_insert_eq.
  - intros c Hc. by apply lookup_insert_ne.
Qed.

Lemma upsert_resets_reminder_witness :
  let env := Scenario.world NoResponse NoResponse in
  let s := Scenario.store (Scenario.tracking 5000 1) in
  let r := update_db_upgrade Scenario.chain_id (Scenario.plan "v3" (VStr "9000")) env s in
  chains s !! Scenario.chain_id = Some {| upgrade_height := 5000; is_reminder_sent := 1 |}
  ∧ chains (final r) !! Scenario.chain_id
    = Some {| upgrade_height := 9000; is_reminder_sent := 0 |}.
Proof.
  split; [reflexivity|].
  exact (proj1 (proj2 (proj2
    (upsert_resets_reminder Scenario.chain_id (Scenario.plan "v3" (VStr "9000")) 9000
       (Scenario.world NoResponse NoResponse)
       (Scenario.store (Scenario.tracking 5000 1)) eq_refl eq_refl)))).
Defined.

(** ** What each branch of the reconciliation emits *)

Lemma emitted_after {A} (t : list Event) (r : Run A) :
  emitted (after t r) = t ++ emitted r.
Proof. by destruct r. Qed.

Lemma outcome_after {A} (t : list Event) (r : Run A) :
  outcome (after t r) = outcome r.
Proof. by destruct r. Qed.

Lemma final_after {A} (t : list Event) (r : Run A) :
  final (after t r) = final r.
Proof. by destruct r. Qed.

Lemma plan_height_ok plan h :
  plan_height plan = Ok h → ∃ hv, getitem plan "height" = Ok hv ∧ int hv = Ok h.
Proof.
  unfold plan_height. destruct (getitem plan "height") as [hv|]; [|discriminate].
  cbn. eauto.
Qed.

Ltac flatten :=
  rewrite ?iteration_run, ?reconcile_run, ?tracked_upgrade_run, ?new_upgrade_run,
    ?remind_slack_run, ?update_db_reminder_run, ?update_db_upgrade_run,
    ?after_after, ?emitted_after, ?outcome_after, ?final_after.

Ltac case_split :=
  repeat (flatten;
          match goal with
          | |- context [match ?x with _ => _ end] =>
              lazymatch x with
              | context [match _ with _ => _ end] => fail
              | _ => destruct x eqn:?
              end
          end; cbn in *; simplify_eq).

Lemma tracked_upgrade_emits config cid plan row env s :
  let r := tracked_upgrade config cid plan row env s in
  existsb is_notice (emitted r) = false
  ∧ existsb is_upsert (emitted r) = false
  ∧ upgrade_height <$> chains (final r) !! cid = upgrade_height <$> chains s !! cid.
Proof.
  cbn zeta. flatten. cbn. case_split; rewrite ?lookup_alter_eq; try done.
  all: by destruct (chains s !! cid).
Qed.

Lemma new_upgrade_emits cid plan env s :
  let r := new_upgrade cid plan env s in
  existsb is_reminder (emitted r) = false
  ∧ existsb is_mark_reminder (emitted r) = false.
Proof.
  cbn zeta. flatten. cbn. case_split; done.
Qed.

Lemma new_upgrade_keeps cid plan env s h old :
  plan_height plan = Ok h →
  old < h →
  let r := new_upgrade cid plan env s in
  existsb (records_new_height cid old) (emitted r) = false →
  chains (final r) = chains s.
Proof.
  intros Hh Hlt. cbn zeta. revert Hh. flatten. cbn.
  case_split; intros Hh; simplify_eq; try done.
  all: rewrite String.eqb_refl; destruct (Z.ltb_spec old h); [done | lia].
Qed.

Lemma new_upgrade_notifies cid plan env s hv nv :
  getitem plan "height" = Ok hv →
  getitem plan "name" = Ok nv →
  existsb is_notice (emitted (new_upgrade cid plan env s)) = true.
Proof.
  intros Hh Hn. rewrite new_upgrade_run, Hh, Hn, emitted_after. done.
Qed.

(** C1, as the code has it.  On an iteration that fetched a plan with a
    name and a height [h], and read the table, the notice is sent exactly
    when the table has no record for the chain id or the recorded height is
    lower than [h]. *)
Theorem notice_iff_untracked_or_higher config cid env s plan h nv :
  observed_plan config env = Ok plan →
  truthy plan = true →
  plan_height plan = Ok h →
  getitem plan "name" = Ok nv →
  select_fault env = None →
  existsb is_notice (emitted (iteration config cid env s)) = true ↔
  (chains s !! cid = None
   ∨ ∃ row, chains s !! cid = Some row ∧ upgrade_height row < h).
Proof.
  intros Hplan Ht Hh Hn Hsel.
  destruct (plan_height_ok _ _ Hh) as (hv & Hhv & _).
  rewrite iteration_run, Hplan, reconcile_run, Ht. cbn [negb]. cbn zeta.
  rewrite Hsel, after_after, emitted_after, existsb_app. cbn [existsb app is_notice orb].
  destruct (chains s !! cid) as [row|].
  - rewrite Hh. destruct (Z.leb_spec h (upgrade_height row)) as [Hle|Hlt].
    + destruct (tracked_upgrade_emits config cid plan row env
                  (checked cid (clock env) s)) as (-> & _).
      split; [done|]. intros [? | (row' & [= <-] & ?)]; [done | lia].
    + rewrite (new_upgrade_notifies _ _ _ _ _ _ Hhv Hn). split; eauto.
  - rewrite (new_upgrade_notifies _ _ _ _ _ _ Hhv Hn). split; eauto.
Qed.

Lemma notice_iff_untracked_or_higher_witness :
  let env := Scenario.world (Scenario.plan_reply (Scenario.plan "v2" (VStr "5000")))
                            NoResponse in
  existsb is_notice
    (emitted (iteration Scenario.config Scenario.chain_id env (Scenario.store ∅)))
  = true.
Proof.
  exact (proj2
    (notice_iff_untracked_or_higher Scenario.config Scenario.chain_id
       (Scenario.world (Scenario.plan_reply (Scenario.plan "v2" (VStr "5000"))) NoResponse)
       (Scenario.store ∅) (Scenario.plan "v2" (VStr "5000")) 5000 (VStr "v2")
       eq_refl eq_refl eq_refl eq_refl eq_refl)
    (or_introl eq_refl)).
Defined.

(** C1 as stated fails.  The table tracks height 5000 and the node reports
    a plan at height 4000: the two heights differ, and no notice is sent. *)
Lemma lower_plan_height_sends_no_notice :
  let plan := Scenario.plan "v2" (VStr "4000") in
  let env := Scenario.world (Scenario.plan_reply plan) (Scenario.status_reply "3000") in
  let s := Scenario.store (Scenario.tracking 5000 0) in
  let r := iteration Scenario.config Scenario.chain_id env s in
  observed_plan Scenario.config env = Ok plan
  ∧ plan_height plan = Ok 4000
  ∧ (upgrade_height <$> chains s !! Scenario.chain_id) = Some 5000
  ∧ 5000 ≠ 4000
  ∧ existsb is_notice (emitted r) = false.
Proof. cbn zeta. repeat split; try reflexivity. lia. Qed.

(** C4.  On an iteration whose plan has a name and a height, that reads a
    record with [is_reminder_sent] = 0 and a height not below the plan's,
    and that fetches the current block height, the reminder is sent exactly when the recorded height minus the
    current height is at most [reminder_diff_blocks]. *)
Theorem reminder_iff_within_threshold config cid env s plan h nv row current :
  observed_plan config env = Ok plan →
  truthy plan = true →
  plan_height plan = Ok h →
  getitem plan "name" = Ok nv →
  select_fault env = None →
  chains s !! cid = Some row →
  is_reminder_sent row = 0 →
  h <= upgrade_height row →
  observed_block config env = Ok current →
  existsb is_reminder (emitted (iteration config cid env s)) = true ↔
  upgrade_height row - current <= reminder_diff_blocks config.
Proof.
  intros Hplan Ht Hh Hn Hsel Hrow Hflag Hle Hblock.
  destruct (plan_height_ok _ _ Hh) as (hv & Hhv & _).
  rewrite iteration_run, Hplan, reconcile_run, Ht. cbn [negb]. cbn zeta.
  rewrite Hsel, Hrow, Hh.
  destruct (Z.leb_spec h (upgrade_height row)) as [_|?]; [|lia].
  rewrite tracked_upgrade_run, Hblock, Hflag. cbn [Z.eqb andb].
  destruct (Z.leb_spec (upgrade_height row - current) (reminder_diff_blocks config))
    as [Hin|Hout].
  - rewrite remind_slack_run, Hh, Hn, Hhv.
    rewrite !after_after, emitted_after, existsb_app. cbn.
    by destruct (send_fault env); rewrite ?emitted_after.
  - cbn. split; [done | lia].
Qed.

Lemma reminder_iff_within_threshold_witness :
  let env := Scenario.world (Scenario.plan_reply (Scenario.plan "v2" (VStr "5000")))
                            (Scenario.status_reply "4900") in
  let s := Scenario.store (Scenario.tracking 5000 0) in
  existsb is_reminder (emitted (iteration Scenario.config Scenario.chain_id env s))
  = true.
Proof.
  refine (proj2
    (reminder_iff_within_threshold Scenario.config Scenario.chain_id
       (Scenario.world (Scenario.plan_reply (Scenario.plan "v2" (VStr "5000")))
                       (Scenario.status_reply "4900"))
       (Scenario.store (Scenario.tracking 5000 0))
       (Scenario.plan "v2" (VStr "5000")) 5000 (VStr "v2")
       {| upgrade_height := 5000; is_reminder_sent := 0 |} 4900
       eq_refl eq_refl eq_refl eq_refl eq_refl eq_refl eq_refl _ eq_refl) _);
    vm_compute; discriminate.
Defined.

(** ** Runs of several iterations *)

Lemma iteration_tracked_height config cid env s plan h row :
  observed_plan config env = Ok plan →
  truthy plan = true →
  plan_height plan = Ok h →
  chains s !! cid = Some row →
  h <= upgrade_height row →
  let r := iteration config cid env s in
  existsb is_notice (emitted r) = false
  ∧ existsb is_upsert (emitted r) = false
  ∧ upgrade_height <$> chains (final r) !! cid = Some (upgrade_height row).
Proof.
  intros Hplan Ht Hh Hrow Hle.
  rewrite iteration_run, Hplan, reconcile_run, Ht. cbn [negb]. cbn zeta.
  rewrite !after_after, emitted_after, final_after, !existsb_app.
  destruct (select_fault env) as [e|]; [by cbn; rewrite Hrow|].
  rewrite Hrow, Hh.
  destruct (Z.leb_spec h (upgrade_height row)) as [_|?]; [|lia].
  destruct (tracked_upgrade_emits config cid plan row env (checked cid (clock env) s))
    as (-> & -> & ->).
  cbn. by rewrite Hrow.
Qed.




Lemma iteration_after_reminder config cid env s row :
  chains s !! cid = Some row →
  is_reminder_sent row ≠ 0 →
  let r := iteration config cid env s in
  existsb is_reminder (emitted r) = false
  ∧ (existsb (records_new_height cid (upgrade_height row)) (emitted r) = false →
     chains (final r) = chains s).
Proof.
  intros Hrow Hflag. cbn zeta.
  rewrite iteration_run.
  destruct (observed_plan config env) as [plan|e]; [|by destruct e].
  rewrite reconcile_run. cbn zeta.
  destruct (truthy plan); [|done]. cbn [negb].
  rewrite !after_after, emitted_after, final_after, !existsb_app.
  destruct (select_fault env) as [e|]; [done|].
  rewrite Hrow.
  destruct (plan_height plan) as [h|e] eqn:Hh; [|done].
  destruct (Z.leb_spec h (upgrade_height row)) as [_|Hlt].
  - rewrite tracked_upgrade_run.
    destruct (Z.eqb_spec (is_reminder_sent row) 0) as [?|_]; [done|]. cbn [andb].
    by destruct (observed_block config env) as [current|[]].
  - destruct (new_upgrade_emits cid plan env (checked cid (clock env) s)) as (-> & _).
    split; [done|]. cbn [existsb orb records_new_height].
    apply (new_upgrade_keeps cid plan env (checked cid (clock env) s) h); done.
Qed.



(** ** Failures that escape the loop *)



Lemma raise_ends_loop config cid env s e rest :
  outcome (iteration config cid env s) = Raise e →
  while_true config cid (env :: rest) s =
  {| outcome := Raise e; final := final (iteration config cid env s);
     emitted := emitted (iteration config cid env s) |}.
Proof.
  intros He. rewrite while_true_cons.
  destruct (iteration config cid env s) as [o s1 t1]; cbn in He; by subst o.
Qed.

Lemma alert_failure_run config cid env s :
  send_fault env = true →
  let r := iteration config cid env s in
  existsb is_alert (emitted r) = true →
  outcome r = Raise SlackError
  ∧ existsb is_write (emitted r) = false
  ∧ existsb is_error_log (emitted r) = false
  ∧ chains (final r) = chains s
  ∧ error_counter (final r) = error_counter s.
Proof.
  intros Hsink. cbn zeta. case_split; done.
Qed.

(** C8, as the code has it.  No method of the watcher catches what
    [WebhookClient.send] raises.  On an iteration that sends an alert while
    the sink raises, the exception leaves [monitor]: the loop ends with it,
    nothing is logged as an error or counted, and the write that follows a
    delivered alert (the upsert after a notice, the reminder mark after a
    reminder) is not executed. *)
Theorem alert_failure_escapes config cid env s :
  send_fault env = true →
  existsb is_alert (emitted (iteration config cid env s)) = true →
  let r := iteration config cid env s in
  outcome r = Raise SlackError
  ∧ existsb is_write (emitted r) = false
  ∧ existsb is_error_log (emitted r) = false
  ∧ chains (final r) = chains s
  ∧ error_counter (final r) = error_counter s
  ∧ ∀ rest, while_true config cid (env :: rest) s =
            {| outcome := Raise SlackError; final := final r; emitted := emitted r |}.
Proof.
  intros Hsink Halert.
  destruct (alert_failure_run config cid env s Hsink Halert)
    as (Hout & Hw & Hl & Hc & He).
  cbn zeta. repeat split; try done.
  intros rest. by apply raise_ends_loop.
Qed.

Lemma alert_failure_escapes_witness :
  let env := Scenario.sink_down
               (Scenario.world (Scenario.plan_reply (Scenario.plan "v2" (VStr "5000")))
                               (Scenario.status_reply "4950")) in
  let r := iteration Scenario.config Scenario.chain_id env
             (Scenario.store (Scenario.tracking 5000 0)) in
  existsb is_reminder (emitted r) = true
  ∧ outcome r = Raise SlackError
  ∧ existsb is_write (emitted r) = false.
Proof.
  split; [reflexivity|].
  pose proof (alert_failure_escapes Scenario.config Scenario.chain_id
    (Scenario.sink_down
       (Scenario.world (Scenario.plan_reply (Scenario.plan "v2" (VStr "5000")))
                       (Scenario.status_reply "4950")))
    (Scenario.store (Scenario.tracking 5000 0)) eq_refl eq_refl)
    as (Hout & Hw & _).
  split; [exact Hout | exact Hw].
Defined.

(** C8 as stated fails.  With no record in the table and a sink that
    raises, the iteration sends the notice and the exception of the send
    ends [monitor]: it is not swallowed, the upsert that follows the notice
    is never executed, and the next iteration does not run. *)
Lemma sink_failure_stops_the_watcher :
  let env := Scenario.sink_down
               (Scenario.world (Scenario.plan_reply (Scenario.plan "v2" (VStr "5000")))
                               NoResponse) in
  let s := Scenario.store ∅ in
  let r := iteration Scenario.config Scenario.chain_id env s in
  let run := while_true Scenario.config Scenario.chain_id [env; env] s in
  existsb is_notice (emitted r) = true
  ∧ outcome r = Raise SlackError
  ∧ existsb is_upsert (emitted r) = false
  ∧ chains (final r) !! Scenario.chain_id = None
  ∧ outcome run = Raise SlackError
  ∧ emitted run = emitted r.
Proof. cbn zeta. repeat split; reflexivity. Qed.

Lemma malformed_height_raises kvs :
  (dict_get "height" kvs = None
   ∨ ∃ str, dict_get "height" kvs = Some (VStr str) ∧ int_of_str str = None) →
  ∃ e, plan_height (VDict kvs) = Raise e ∧ (e = KeyError "height" ∨ e = ValueError).
Proof.
  unfold plan_height. cbn.
  intros [-> | (str & -> & Hstr)]; cbn; [eauto|].
  rewrite Hstr. eauto.
Qed.

Lemma height_failure_run config cid env s plan e0 :
  observed_plan config env = Ok plan →
  truthy plan = true →
  plan_height plan = Raise e0 →
  let r := iteration config cid env s in
  (∃ e, outcome r = Raise e
        ∧ (select_fault env = None → send_fault env = false →
           e = e0 ∨ getitem plan "name" = Raise e))
  ∧ existsb is_error_log (emitted r) = false
  ∧ existsb is_write (emitted r) = false
  ∧ chains (final r) = chains s
  ∧ error_counter (final r) = error_counter s.
Proof.
  intros Hplan Ht Hh. cbn zeta.
  rewrite iteration_run, Hplan, reconcile_run, Ht. cbn zeta. cbn [negb].
  revert Hh. unfold plan_height. cbn.
  case_split; intros Hh; simplify_eq;
    try (exfalso; unfold plan_height in *;
         repeat match goal with
                | H : getitem plan "height" = _ |- _ => rewrite H in *
                end; cbn in *; congruence);
    repeat split; try done.
  all: eexists; split; [reflexivity|]; intros; simplify_eq; eauto.
  left. unfold plan_height in *.
  match goal with H : getitem plan "height" = Ok _ |- _ => rewrite H in * end.
  cbn in *. congruence.
Qed.

Lemma height_failure_place config cid env s plan e0 :
  observed_plan config env = Ok plan →
  truthy plan = true →
  plan_height plan = Raise e0 →
  select_fault env = None →
  let r := iteration config cid env s in
  let read := [Sleep (interval_seconds config);
               Log DEBUG "fetching upgrade plans" [];
               HttpGet (plan_url config);
               Execute (Select cid) None] in
  (∀ row, chains s !! cid = Some row → emitted r = read ∧ outcome r = Raise e0)
  ∧ (chains s !! cid = None → ∀ e, getitem plan "height" = Raise e →
       emitted r = read ∧ outcome r = Raise e)
  ∧ (chains s !! cid = None → ∀ hv nv,
       getitem plan "height" = Ok hv → getitem plan "name" = Ok nv →
       emitted r = read ++ [Send (Notice cid nv hv)]
       ∧ outcome r = Raise (if send_fault env then SlackError else e0)).
Proof.
  intros Hplan Ht Hh Hsel. cbn zeta.
  rewrite iteration_run, Hplan, reconcile_run, Ht. cbn zeta. cbn [negb].
  rewrite Hsel, after_after, emitted_after, outcome_after.
  split; [|split].
  - intros row Hrow. by rewrite Hrow, Hh.
  - intros Hnone e Hheight. by rewrite Hnone, new_upgrade_run, Hheight.
  - intros Hnone hv nv Hheight Hname.
    rewrite Hnone, new_upgrade_run, Hheight, Hname, emitted_after, outcome_after.
    destruct (send_fault env); [done|].
    by rewrite update_db_upgrade_run, Hh.
Qed.

(** C10, as the code has it.  When the fetched plan is a non-empty dict
    whose ["height"] is missing, or is a string that [int] rejects, the
    iteration raises and the exception leaves [monitor]: the loop ends with
    it, no error is logged, no counter is incremented and no write is
    executed.  Unless the table read or the alert send raises first, the
    exception is a [KeyError] or the [ValueError] of [int].

    Where it is raised depends on the table.  With a record for the
    chain, line 93 raises before anything is sent.  Without one, a missing
    height raises in [notify_slack] before anything is sent, but a string
    that [int] rejects passes [notify_slack]: the notice is delivered
    first, and [int] raises only in [update_db_upgrade]. *)
Theorem malformed_height_escapes config cid env s kvs :
  observed_plan config env = Ok (VDict kvs) →
  truthy (VDict kvs) = true →
  (dict_get "height" kvs = None
   ∨ ∃ str, dict_get "height" kvs = Some (VStr str)
            ∧ ascii_only str = true ∧ int_of_str str = None) →
  let r := iteration config cid env s in
  let read := [Sleep (interval_seconds config);
               Log DEBUG "fetching upgrade plans" [];
               HttpGet (plan_url config);
               Execute (Select cid) None] in
  (∃ e, outcome r = Raise e
        ∧ (select_fault env = None → send_fault env = false →
           (∃ k, e = KeyError k) ∨ e = ValueError)
        ∧ existsb is_error_log (emitted r) = false
        ∧ existsb is_write (emitted r) = false
        ∧ chains (final r) = chains s
        ∧ error_counter (final r) = error_counter s
        ∧ ∀ rest, while_true config cid (env :: rest) s =
                  {| outcome := Raise e; final := final r; emitted := emitted r |})
  ∧ (select_fault env = None →
     (∀ row, chains s !! cid = Some row →
        emitted r = read
        ∧ outcome r = Raise (match dict_get "height" kvs with
                             | Some _ => ValueError
                             | None => KeyError "height"
                             end))
     ∧ (chains s !! cid = None → dict_get "height" kvs = None →
        emitted r = read ∧ outcome r = Raise (KeyError "height"))
     ∧ (chains s !! cid = None → ∀ hv nv,
        dict_get "height" kvs = Some hv → dict_get "name" kvs = Some nv →
        emitted r = read ++ [Send (Notice cid nv hv)]
        ∧ outcome r = Raise (if send_fault env then SlackError else ValueError))).
Proof.
  intros Hplan Ht Hbad.
  destruct (malformed_height_raises kvs) as (e0 & Hh & He0).
  { destruct Hbad as [?|(str & ? & _ & ?)]; eauto. }
  destruct (height_failure_run config cid env s (VDict kvs) e0 Hplan Ht Hh)
    as ((e & Hout & He) & Hlog & Hw & Hc & Hcount).
  cbn zeta. split.
  - exists e. repeat split; try done.
    + intros Hsel Hsend. destruct (He Hsel Hsend) as [-> | Hname].
      * destruct He0 as [-> | ->]; eauto.
      * left. cbn in Hname. destruct (dict_get "name" kvs); [discriminate|].
        injection Hname as <-. eauto.
    + intros rest. by apply raise_ends_loop.
  - intros Hsel.
    destruct (height_failure_place config cid env s (VDict kvs) e0 Hplan Ht Hh Hsel)
      as (Htracked & Hmissing & Hsent).
    assert (He0' : e0 = match dict_get "height" kvs with
                        | Some _ => ValueError
                        | None => KeyError "height"
                        end).
    { revert Hh. unfold plan_height. cbn.
      destruct Hbad as [-> | (str & -> & _ & Hstr)]; cbn.
      - by intros [= <-].
      - rewrite Hstr. by intros [= <-]. }
    split; [|split].
    + intros row Hrow. rewrite <- He0'. by apply (Htracked row).
    + intros Hnone Hk. apply (Hmissing Hnone). cbn. by rewrite Hk.
    + intros Hnone hv nv Hk Hname.
      rewrite Hk in He0'. subst e0.
      apply (Hsent Hnone); cbn; [by rewrite Hk | by rewrite Hname].
Qed.

Lemma malformed_height_escapes_witness :
  let plan := [("name", VStr "v2"); ("height", VStr "soon")] in
  let env := Scenario.world (Scenario.plan_reply (VDict plan)) NoResponse in
  let r := iteration Scenario.config Scenario.chain_id env (Scenario.store ∅) in
  emitted r !! 4%nat = Some (Send (Notice "cosmoshub-4" (VStr "v2") (VStr "soon")))
  ∧ outcome r = Raise ValueError.
Proof.
  destruct (malformed_height_escapes Scenario.config Scenario.chain_id
    (Scenario.world
       (Scenario.plan_reply (VDict [("name", VStr "v2"); ("height", VStr "soon")]))
       NoResponse)
    (Scenario.store ∅)
    [("name", VStr "v2"); ("height", VStr "soon")]
    eq_refl eq_refl
    (or_intror (ex_intro _ "soon" (conj eq_refl (conj eq_refl eq_refl)))))
    as (_ & Hwhere).
  destruct (Hwhere eq_refl) as (_ & _ & Hsent).
  destruct (Hsent eq_refl (VStr "soon") (VStr "v2") eq_refl eq_refl) as (Hem & Hout).
  cbv zeta. rewrite Hem, Hout. split; reflexivity.
Defined.

(** C10 as stated fails.  A plan whose ["height"] is the JSON number 5000
    has a height that is not a string, and [int] converts it: the
    iteration raises nothing, sends the notice and records height 5000. *)
Lemma numeric_height_is_accepted :
  let plan := Scenario.plan "v2" (VInt 5000) in
  let env := Scenario.world (Scenario.plan_reply plan) NoResponse in
  let r := iteration Scenario.config Scenario.chain_id env (Scenario.store ∅) in
  observed_plan Scenario.config env = Ok plan
  ∧ truthy plan = true
  ∧ getitem plan "height" = Ok (VInt 5000)
  ∧ outcome r = Ok Continue
  ∧ existsb is_notice (emitted r) = true
  ∧ chains (final r) !! Scenario.chain_id
    = Some {| upgrade_height := 5000; is_reminder_sent := 0 |}.
Proof. cbn zeta. repeat split; reflexivity. Qed.

(** * Further properties of the watcher *)

(** ** The plan fetch *)

Lemma plan_of_response_200 text body :
  plan_of_response (Response 200 text body) =
  match body with
  | Some j =>
      match contains "plan" j with
      | Ok true => getitem j "plan"
      | Ok false => Raise PlanNotInRequest
      | Raise e => Raise e
      end
  | None => Raise JSONDecodeError
  end.
Proof.
  unfold plan_of_response. cbn.
  destruct body as [j|]; cbn; try reflexivity.
  destruct (contains "plan" j) as [[]|]; reflexivity.
Qed.

Lemma plan_of_response_not_200 status text body :
  status ≠ 200 →
  plan_of_response (Response status text body) = Raise (UpgradeRequestFailed text).
Proof.
  intros Hs. unfold plan_of_response.
  by destruct (Z.eqb_spec status 200).
Qed.

Lemma getitem_ok v k x :
  getitem v k = Ok x ↔ ∃ kvs, v = VDict kvs ∧ dict_get k kvs = Some x.
Proof.
  split.
  - destruct v as [| | | | | |kvs]; cbn; try discriminate.
    destruct (dict_get k kvs) eqn:Hk; [|discriminate].
    intros [= <-]. eauto.
  - intros (kvs & -> & Hk). cbn. by rewrite Hk.
Qed.

(** X1.  [fetch_upgrade_plan] makes one GET and leaves the store alone.  It
    raises [UpgradeRequestFailed] with the body text exactly when a
    response arrives whose status code is not 200, and [PlanNotInRequest]
    exactly when the status is 200 and the parsed body reports no ["plan"].
    It returns [plan] exactly when the status is 200 and the body is a
    dict that maps ["plan"] to [plan]: a null or empty plan is returned as
    it is, not raised. *)
Theorem fetch_upgrade_plan_outcomes endpoint env s :
  let url := endpoint +:+ "/cosmos/upgrade/v1beta1/current_plan" in
  let r := fetch_upgrade_plan endpoint env s in
  final r = s
  ∧ emitted r = [HttpGet url]
  ∧ (∀ text, outcome r = Raise (UpgradeRequestFailed text) ↔
             ∃ status body, http env url = Response status text body ∧ status ≠ 200)
  ∧ (outcome r = Raise PlanNotInRequest ↔
     ∃ text j, http env url = Response 200 text (Some j)
               ∧ contains "plan" j = Ok false)
  ∧ (∀ plan, outcome r = Ok plan ↔
             ∃ text kvs, http env url = Response 200 text (Some (VDict kvs))
                         ∧ dict_get "plan" kvs = Some plan).
Proof.
  cbn zeta. rewrite fetch_upgrade_plan_run. cbn [outcome final emitted].
  split; [done|]. split; [done|].
  destruct (http env _) as [|status text body]; [by break_iffs|].
  destruct (decide (status = 200)) as [->|Hne].
  - rewrite plan_of_response_200.
    destruct body as [j|]; [|by break_iffs].
    destruct (contains "plan" j) as [[]|e] eqn:Hc.
    + destruct (getitem j "plan") as [plan|e] eqn:Hp.
      * apply getitem_ok in Hp as (kvs & -> & Hk). break_iffs; eauto.
      * pose proof (getitem_raises _ _ _ Hp) as Hb. break_iffs.
        cbn in Hp. by rewrite H0 in Hp.
    + break_iffs; eauto. cbn in Hc. by rewrite H0 in Hc.
    + pose proof (contains_raises _ _ _ Hc) as ->. break_iffs.
  - rewrite plan_of_response_not_200 by done. break_iffs; eauto.
Qed.

(** ** The branches of one iteration, event by event *)

Lemma continue_goes_on config cid env rest s s1 t1 :
  iteration config cid env s =
    {| outcome := Ok Continue; final := s1; emitted := t1 |} →
  while_true config cid (env :: rest) s = after t1 (while_true config cid rest s1).
Proof. intros Hrun. by rewrite while_true_cons, Hrun. Qed.

Lemma return_ends_loop config cid env rest s s1 t1 :
  iteration config cid env s =
    {| outcome := Ok Return; final := s1; emitted := t1 |} →
  while_true config cid (env :: rest) s =
    {| outcome := Ok Returned; final := s1; emitted := t1 |}.
Proof. intros Hrun. by rewrite while_true_cons, Hrun. Qed.

(** X2.  When the fetch yields a falsy plan (null, an empty dict, ...), the
    iteration sets the gauge, logs that there is no plan and goes on to
    the next one: the table is neither read nor written, the block height
    is not fetched and no alert is sent. *)
Theorem no_plan_tick config cid env s plan :
  observed_plan config env = Ok plan →
  truthy plan = false →
  iteration config cid env s =
  {| outcome := Ok Continue;
     final := checked cid (clock env) s;
     emitted := [Sleep (interval_seconds config);
                 Log DEBUG "fetching upgrade plans" [];
                 HttpGet (plan_url config);
                 Log DEBUG "no current upgrade plan" []] |}.
Proof.
  intros Hplan Ht. by rewrite iteration_run, Hplan, reconcile_run, Ht.
Qed.

Lemma no_plan_tick_witness :
  let env := Scenario.world (Scenario.plan_reply (VDict [])) NoResponse in
  outcome (iteration Scenario.config Scenario.chain_id env
             (Scenario.store (Scenario.tracking 5000 0))) = Ok Continue.
Proof.
  exact (f_equal outcome
    (no_plan_tick Scenario.config Scenario.chain_id
       (Scenario.world (Scenario.plan_reply (VDict [])) NoResponse)
       (Scenario.store (Scenario.tracking 5000 0)) (VDict []) eq_refl eq_refl)).
Defined.

(** X3.  [get_db_upgrade] has no [try]: when the [SELECT] raises, the
    exception leaves [monitor] right after the gauge was set, with no
    error logged or counted, no alert and no write. *)
Theorem select_failure_escapes config cid env s plan e :
  observed_plan config env = Ok plan →
  truthy plan = true →
  select_fault env = Some e →
  let r := iteration config cid env s in
  r = {| outcome := Raise (Sqlite e);
         final := checked cid (clock env) s;
         emitted := [Sleep (interval_seconds config);
                     Log DEBUG "fetching upgrade plans" [];
                     HttpGet (plan_url config);
                     Execute (Select cid) (Some e)] |}
  ∧ ∀ rest, while_true config cid (env :: rest) s =
            {| outcome := Raise (Sqlite e); final := final r; emitted := emitted r |}.
Proof.
  intros Hplan Ht Hsel.
  assert (Hrun : iteration config cid env s =
    {| outcome := Raise (Sqlite e); final := checked cid (clock env) s;
       emitted := [Sleep (interval_seconds config);
                   Log DEBUG "fetching upgrade plans" [];
                   HttpGet (plan_url config); Execute (Select cid) (Some e)] |}).
  { by rewrite iteration_run, Hplan, reconcile_run, Ht, Hsel. }
  cbn zeta. split; [done|].
  intros rest. apply raise_ends_loop. by rewrite Hrun.
Qed.

Lemma select_failure_escapes_witness :
  let env := Scenario.select_fails (OperationalError "no such table: chains")
               (Scenario.world (Scenario.plan_reply (Scenario.plan "v2" (VStr "5000")))
                               NoResponse) in
  outcome (iteration Scenario.config Scenario.chain_id env (Scenario.store ∅))
  = Raise (Sqlite (OperationalError "no such table: chains")).
Proof.
  exact (f_equal outcome (proj1
    (select_failure_escapes Scenario.config Scenario.chain_id
       (Scenario.select_fails (OperationalError "no such table: chains")
          (Scenario.world (Scenario.plan_reply (Scenario.plan "v2" (VStr "5000")))
                          NoResponse))
       (Scenario.store ∅) (Scenario.plan "v2" (VStr "5000"))
       (OperationalError "no such table: chains") eq_refl eq_refl eq_refl))).
Defined.

Lemma tracked_tick config cid env s plan h row :
  observed_plan config env = Ok plan →
  truthy plan = true →
  plan_height plan = Ok h →
  select_fault env = None →
  chains s !! cid = Some row →
  h <= upgrade_height row →
  iteration config cid env s =
  after [Sleep (interval_seconds config);
         Log DEBUG "fetching upgrade plans" [];
         HttpGet (plan_url config);
         Execute (Select cid) None]
    (tracked_upgrade config cid plan row env (checked cid (clock env) s)).
Proof.
  intros Hplan Ht Hh Hsel Hrow Hle.
  rewrite iteration_run, Hplan, reconcile_run, Ht. cbn [negb]. cbn zeta.
  rewrite Hsel, Hrow, Hh, after_after.
  by destruct (Z.leb_spec h (upgrade_height row)) as [_|?]; [|lia].
Qed.

Lemma untracked_tick config cid env s plan h :
  observed_plan config env = Ok plan →
  truthy plan = true →
  plan_height plan = Ok h →
  select_fault env = None →
  untracked cid h s →
  iteration config cid env s =
  after [Sleep (interval_seconds config);
         Log DEBUG "fetching upgrade plans" [];
         HttpGet (plan_url config);
         Execute (Select cid) None]
    (new_upgrade cid plan env (checked cid (clock env) s)).
Proof.
  intros Hplan Ht Hh Hsel Hun.
  rewrite iteration_run, Hplan, reconcile_run, Ht. cbn [negb]. cbn zeta.
  rewrite Hsel, after_after.
  destruct (chains s !! cid) as [row|] eqn:Hrow; [|done].
  rewrite Hh. specialize (Hun row Hrow).
  by destruct (Z.leb_spec h (upgrade_height row)) as [?|_]; [lia|].
Qed.

(** X4.  In the branch of a tracked upgrade, a block fetch that raises
    [BlockNotInRequest] or [BlockRequestFailed] is logged as an error and
    counted under its label, and [monitor] returns: the loop ends there
    with no alert and no write. *)
Theorem block_fetch_failure_halts config cid env s plan h row e :
  observed_plan config env = Ok plan →
  truthy plan = true →
  plan_height plan = Ok h →
  select_fault env = None →
  chains s !! cid = Some row →
  h <= upgrade_height row →
  observed_block config env = Raise e →
  e = BlockNotInRequest ∨ (∃ text, e = BlockRequestFailed text) →
  let r := iteration config cid env s in
  outcome r = Ok Return
  ∧ final r = counted cid (error_label e) (checked cid (clock env) s)
  ∧ (∃ msg args,
       emitted r = [Sleep (interval_seconds config);
                    Log DEBUG "fetching upgrade plans" [];
                    HttpGet (plan_url config);
                    Execute (Select cid) None;
                    HttpGet (status_url config);
                    Log ERROR msg args])
  ∧ ∀ rest, while_true config cid (env :: rest) s =
            {| outcome := Ok Returned; final := final r; emitted := emitted r |}.
Proof.
  intros Hplan Ht Hh Hsel Hrow Hle Hblock He.
  assert (Hrun : ∃ msg args, iteration config cid env s =
    {| outcome := Ok Return;
       final := counted cid (error_label e) (checked cid (clock env) s);
       emitted := [Sleep (interval_seconds config);
                   Log DEBUG "fetching upgrade plans" [];
                   HttpGet (plan_url config); Execute (Select cid) None;
                   HttpGet (status_url config); Log ERROR msg args] |}).
  { rewrite (tracked_tick config cid env s plan h row) by done.
    rewrite tracked_upgrade_run, Hblock.
    destruct He as [-> | [text ->]]; cbn; eauto. }
  destruct Hrun as (msg & args & Hrun).
  cbn zeta. rewrite Hrun. cbn [outcome final emitted].
  repeat split; eauto.
  intros rest. by apply return_ends_loop.
Qed.

Lemma block_fetch_failure_halts_witness :
  let env := Scenario.world (Scenario.plan_reply (Scenario.plan "v2" (VStr "5000")))
                            (Response 503 "unavailable" None) in
  let r := iteration Scenario.config Scenario.chain_id env
             (Scenario.store (Scenario.tracking 5000 0)) in
  outcome r = Ok Return
  ∧ errors (final r) Scenario.chain_id "block_request_failed" = 1%nat.
Proof.
  pose proof (block_fetch_failure_halts Scenario.config Scenario.chain_id
    (Scenario.world (Scenario.plan_reply (Scenario.plan "v2" (VStr "5000")))
                    (Response 503 "unavailable" None))
    (Scenario.store (Scenario.tracking 5000 0))
    (Scenario.plan "v2" (VStr "5000")) 5000
    {| upgrade_height := 5000; is_reminder_sent := 0 |}
    (BlockRequestFailed "unavailable")
    eq_refl eq_refl eq_refl eq_refl eq_refl ltac:(vm_compute; discriminate) eq_refl
    (or_intror (ex_intro _ "unavailable" eq_refl))) as (Hout & Hfin & _).
  split; [exact Hout|].
  rewrite Hfin. reflexivity.
Defined.

(** X5.  A tracked upgrade whose reminder was already sent, or whose
    height is still more than [reminder_diff_blocks] ahead of the chain,
    makes a quiet iteration: after the two fetches and the table read it
    only logs that there is no new plan.  No alert, no write, and the
    plan's name is never looked at. *)
Theorem quiet_tick config cid env s plan h row current :
  observed_plan config env = Ok plan →
  truthy plan = true →
  plan_height plan = Ok h →
  select_fault env = None →
  chains s !! cid = Some row →
  h <= upgrade_height row →
  observed_block config env = Ok current →
  is_reminder_sent row ≠ 0
  ∨ reminder_diff_blocks config < upgrade_height row - current →
  iteration config cid env s =
  {| outcome := Ok Continue;
     final := checked cid (clock env) s;
     emitted := [Sleep (interval_seconds config);
                 Log DEBUG "fetching upgrade plans" [];
                 HttpGet (plan_url config);
                 Execute (Select cid) None;
                 HttpGet (status_url config);
                 Log DEBUG "no new upgrade plan" []] |}.
Proof.
  intros Hplan Ht Hh Hsel Hrow Hle Hblock Hquiet.
  rewrite (tracked_tick config cid env s plan h row) by done.
  rewrite tracked_upgrade_run, Hblock.
  assert ((is_reminder_sent row =? 0)
          && (upgrade_height row - current <=? reminder_diff_blocks config) = false)
    as ->; [|done].
  apply andb_false_iff. destruct Hquiet as [Hsent|Hfar].
  - left. by apply Z.eqb_neq.
  - right. apply Z.leb_gt. lia.
Qed.

Lemma quiet_tick_witness :
  let env := Scenario.world (Scenario.plan_reply (Scenario.plan "v2" (VStr "5000")))
                            (Scenario.status_reply "4899") in
  let r := iteration Scenario.config Scenario.chain_id env
             (Scenario.store (Scenario.tracking 5000 0)) in
  outcome r = Ok Continue ∧ existsb is_alert (emitted r) = false.
Proof.
  cbv zeta. rewrite (quiet_tick Scenario.config Scenario.chain_id
    (Scenario.world (Scenario.plan_reply (Scenario.plan "v2" (VStr "5000")))
                    (Scenario.status_reply "4899"))
    (Scenario.store (Scenario.tracking 5000 0))
    (Scenario.plan "v2" (VStr "5000")) 5000
    {| upgrade_height := 5000; is_reminder_sent := 0 |} 4899
    eq_refl eq_refl eq_refl eq_refl eq_refl ltac:(vm_compute; discriminate) eq_refl
    (or_intror (eq_refl Lt))).
  split; reflexivity.
Defined.

(** X6.  A reminder that goes through: with the flag unset, the threshold
    reached, a sink and a table that work, the iteration sends one
    reminder and then marks the record.  The message carries the plan's
    name and height, the current block and, as the remaining blocks, the
    plan's height minus the current block (not the recorded height that
    the threshold test used).  The record keeps its height. *)
Theorem reminder_tick config cid env s plan hv h nv row current :
  observed_plan config env = Ok plan →
  truthy plan = true →
  getitem plan "height" = Ok hv →
  int hv = Ok h →
  getitem plan "name" = Ok nv →
  select_fault env = None →
  chains s !! cid = Some row →
  is_reminder_sent row = 0 →
  h <= upgrade_height row →
  observed_block config env = Ok current →
  upgrade_height row - current <= reminder_diff_blocks config →
  send_fault env = false →
  write_fault env = None →
  let r := iteration config cid env s in
  outcome r = Ok Continue
  ∧ emitted r = [Sleep (interval_seconds config);
                 Log DEBUG "fetching upgrade plans" [];
                 HttpGet (plan_url config);
                 Execute (Select cid) None;
                 HttpGet (status_url config);
                 Log DEBUG ("upgrade time in less than "
                            +:+ pretty (reminder_diff_blocks config) +:+ " blocks") [];
                 Send (Reminder cid nv hv (h - current) current);
                 Execute (UpdateReminder cid 1) None;
                 Log DEBUG "no new upgrade plan" []]
  ∧ chains (final r) = <[cid := marked row]> (chains s).
Proof.
  intros Hplan Ht Hhv Hint Hn Hsel Hrow Hflag Hle Hblock Hdue Hsend Hwrite.
  assert (Hh : plan_height plan = Ok h).
  { unfold plan_height. by rewrite Hhv. }
  cbn zeta. rewrite (tracked_tick config cid env s plan h row) by done.
  rewrite tracked_upgrade_run, Hblock, Hflag.
  destruct (Z.leb_spec (upgrade_height row - current) (reminder_diff_blocks config))
    as [_|?]; [|lia].
  cbn [Z.eqb andb].
  rewrite remind_slack_run, Hh, Hn, Hhv, Hsend, update_db_reminder_run, Hwrite.
  cbn. repeat split.
  apply map_eq. intros c. destruct (decide (c = cid)) as [->|Hne].
  - by rewrite lookup_alter_eq, lookup_insert_eq, Hrow.
  - by rewrite lookup_alter_ne, lookup_insert_ne.
Qed.

Lemma reminder_tick_witness :
  let env := Scenario.world (Scenario.plan_reply (Scenario.plan "v2" (VStr "4990")))
                            (Scenario.status_reply "4950") in
  let r := iteration Scenario.config Scenario.chain_id env
             (Scenario.store (Scenario.tracking 5000 0)) in
  emitted r !! 6%nat
  = Some (Send (Reminder "cosmoshub-4" (VStr "v2") (VStr "4990") 40 4950)).
Proof.
  cbv zeta. rewrite (proj1 (proj2
    (reminder_tick Scenario.config Scenario.chain_id
       (Scenario.world (Scenario.plan_reply (Scenario.plan "v2" (VStr "4990")))
                       (Scenario.status_reply "4950"))
       (Scenario.store (Scenario.tracking 5000 0))
       (Scenario.plan "v2" (VStr "4990")) (VStr "4990") 4990 (VStr "v2")
       {| upgrade_height := 5000; is_reminder_sent := 0 |} 4950
       eq_refl eq_refl eq_refl eq_refl eq_refl eq_refl eq_refl eq_refl
       ltac:(vm_compute; discriminate) eq_refl ltac:(vm_compute; discriminate)
       eq_refl eq_refl))).
  reflexivity.
Defined.

(** X7.  A new upgrade that goes through: when the table has no record for
    the chain or one below the plan's height, and the sink and the table
    work, the iteration sends one notice carrying the plan's name and
    height and then upserts the record (height, reminder not sent),
    whatever record was there. *)
Theorem announce_tick config cid env s plan hv h nv :
  observed_plan config env = Ok plan →
  truthy plan = true →
  getitem plan "height" = Ok hv →
  int hv = Ok h →
  getitem plan "name" = Ok nv →
  select_fault env = None →
  untracked cid h s →
  send_fault env = false →
  write_fault env = None →
  let r := iteration config cid env s in
  outcome r = Ok Continue
  ∧ emitted r = [Sleep (interval_seconds config);
                 Log DEBUG "fetching upgrade plans" [];
                 HttpGet (plan_url config);
                 Execute (Select cid) None;
                 Send (Notice cid nv hv);
                 Execute (InsertOrReplace cid h 0) None]
  ∧ chains (final r)
    = <[cid := {| upgrade_height := h; is_reminder_sent := 0 |}]> (chains s).
Proof.
  intros Hplan Ht Hhv Hint Hn Hsel Hun Hsend Hwrite.
  assert (Hh : plan_height plan = Ok h).
  { unfold plan_height. by rewrite Hhv. }
  cbn zeta. rewrite (untracked_tick config cid env s plan h) by done.
  by rewrite new_upgrade_run, Hhv, Hn, Hsend, update_db_upgrade_run, Hh, Hwrite.
Qed.

Lemma announce_tick_witness :
  let env := Scenario.world (Scenario.plan_reply (Scenario.plan "v3" (VStr "9000")))
                            NoResponse in
  let r := iteration Scenario.config Scenario.chain_id env
             (Scenario.store (Scenario.tracking 5000 1)) in
  chains (final r) !! Scenario.chain_id
  = Some {| upgrade_height := 9000; is_reminder_sent := 0 |}.
Proof.
  cbv zeta. rewrite (proj2 (proj2
    (announce_tick Scenario.config Scenario.chain_id
       (Scenario.world (Scenario.plan_reply (Scenario.plan "v3" (VStr "9000")))
                       NoResponse)
       (Scenario.store (Scenario.tracking 5000 1))
       (Scenario.plan "v3" (VStr "9000")) (VStr "9000") 9000 (VStr "v3")
       eq_refl eq_refl eq_refl eq_refl eq_refl eq_refl
       ltac:(intros row [= <-]; reflexivity) eq_refl eq_refl))).
  reflexivity.
Defined.

(** X8.  A new plan without a name is neither announced nor recorded:
    [notify_slack] fails on [plan['name']] before anything is sent, and
    the exception leaves [monitor] with no error logged or counted. *)
Theorem nameless_plan_escapes config cid env s plan h e :
  observed_plan config env = Ok plan →
  truthy plan = true →
  plan_height plan = Ok h →
  getitem plan "name" = Raise e →
  select_fault env = None →
  untracked cid h s →
  let r := iteration config cid env s in
  r = {| outcome := Raise e;
         final := checked cid (clock env) s;
         emitted := [Sleep (interval_seconds config);
                     Log DEBUG "fetching upgrade plans" [];
                     HttpGet (plan_url config);
                     Execute (Select cid) None] |}
  ∧ ∀ rest, while_true config cid (env :: rest) s =
            {| outcome := Raise e; final := final r; emitted := emitted r |}.
Proof.
  intros Hplan Ht Hh Hn Hsel Hun.
  destruct (plan_height_ok _ _ Hh) as (hv & Hhv & _).
  assert (Hrun : iteration config cid env s =
    {| outcome := Raise e; final := checked cid (clock env) s;
       emitted := [Sleep (interval_seconds config);
                   Log DEBUG "fetching upgrade plans" [];
                   HttpGet (plan_url config); Execute (Select cid) None] |}).
  { rewrite (untracked_tick config cid env s plan h) by done.
    by rewrite new_upgrade_run, Hhv, Hn. }
  cbn zeta. split; [done|].
  intros rest. apply raise_ends_loop. by rewrite Hrun.
Qed.

Lemma nameless_plan_escapes_witness :
  let env := Scenario.world (Scenario.plan_reply (VDict [("height", VStr "5000")]))
                            NoResponse in
  outcome (iteration Scenario.config Scenario.chain_id env (Scenario.store ∅))
  = Raise (KeyError "name").
Proof.
  refine (f_equal outcome (proj1
    (nameless_plan_escapes Scenario.config Scenario.chain_id
       (Scenario.world (Scenario.plan_reply (VDict [("height", VStr "5000")]))
                       NoResponse)
       (Scenario.store ∅) (VDict [("height", VStr "5000")]) 5000 (KeyError "name")
       eq_refl eq_refl eq_refl eq_refl eq_refl _))).
  intros row Hrow. vm_compute in Hrow. discriminate.
Defined.

(** ** The ledger writes *)



(** X10.  The writes catch [sqlite3.OperationalError] only.  On an
    iteration that executes a write which raises another database error,
    in the statement or in its commit, the exception leaves [monitor]: no
    error is logged and no counter is incremented, and when it was the
    statement that raised the table is as before. *)
Theorem other_write_error_escapes config cid env s stage msg :
  write_fault env = Some (stage, DatabaseError msg) →
  existsb is_write (emitted (iteration config cid env s)) = true →
  let r := iteration config cid env s in
  outcome r = Raise (Sqlite (DatabaseError msg))
  ∧ (stage = AtExecute → chains (final r) = chains s)
  ∧ error_counter (final r) = error_counter s
  ∧ existsb is_error_log (emitted r) = false
  ∧ ∀ rest, while_true config cid (env :: rest) s =
            {| outcome := Raise (Sqlite (DatabaseError msg));
               final := final r; emitted := emitted r |}.
Proof.
  intros Hw Hwrote.
  assert (Hrun : outcome (iteration config cid env s) = Raise (Sqlite (DatabaseError msg))
                 ∧ (stage = AtExecute → chains (final (iteration config cid env s)) = chains s)
                 ∧ error_counter (final (iteration config cid env s)) = error_counter s
                 ∧ existsb is_error_log (emitted (iteration config cid env s)) = false).
  { revert Hwrote. case_split; done. }
  destruct Hrun as (Hout & Hc & He & Hl).
  cbn zeta. repeat split; try done.
  intros rest. by apply raise_ends_loop.
Qed.

Lemma other_write_error_escapes_witness :
  let env := Scenario.write_fails (DatabaseError "constraint failed")
               (Scenario.world (Scenario.plan_reply (Scenario.plan "v2" (VStr "5000")))
                               NoResponse) in
  outcome (iteration Scenario.config Scenario.chain_id env (Scenario.store ∅))
  = Raise (Sqlite (DatabaseError "constraint failed")).
Proof.
  exact (proj1
    (other_write_error_escapes Scenario.config Scenario.chain_id
       (Scenario.write_fails (DatabaseError "constraint failed")
          (Scenario.world (Scenario.plan_reply (Scenario.plan "v2" (VStr "5000")))
                          NoResponse))
       (Scenario.store ∅) AtExecute "constraint failed" eq_refl eq_refl)).
Defined.

(** ** Writes that fail, over several iterations *)

Lemma count_app kind (t1 t2 : list Event) :
  count kind (t1 ++ t2) = (count kind t1 + count kind t2)%nat.
Proof. induction t1 as [|ev t1 IH]; cbn; [done|]. rewrite IH. lia. Qed.

Lemma errors_counted_checked cid label now s :
  errors (counted cid label (checked cid now s)) cid label = S (errors s cid label).
Proof. by rewrite errors_counted. Qed.

Lemma failed_upsert_tick config cid env s plan hv h nv msg :
  observed_plan config env = Ok plan →
  truthy plan = true →
  getitem plan "height" = Ok hv →
  int hv = Ok h →
  getitem plan "name" = Ok nv →
  select_fault env = None →
  untracked cid h s →
  send_fault env = false →
  write_fault env = Some (AtExecute, OperationalError msg) →
  iteration config cid env s =
  {| outcome := Ok Continue;
     final := counted cid "database_update_failed" (checked cid (clock env) s);
     emitted := [Sleep (interval_seconds config);
                 Log DEBUG "fetching upgrade plans" [];
                 HttpGet (plan_url config);
                 Execute (Select cid) None;
                 Send (Notice cid nv hv);
                 Execute (InsertOrReplace cid h 0) (Some (OperationalError msg));
                 Log ERROR "failed to update database with new upgrade" []] |}.
Proof.
  intros Hplan Ht Hhv Hint Hn Hsel Hun Hsend Hwrite.
  assert (Hh : plan_height plan = Ok h).
  { unfold plan_height. by rewrite Hhv. }
  rewrite (untracked_tick config cid env s plan h) by done.
  by rewrite new_upgrade_run, Hhv, Hn, Hsend, update_db_upgrade_run, Hh, Hwrite.
Qed.

(** X11.  An upsert whose statement raises [OperationalError] is logged and
    counted and the loop goes on, but nothing was written: as long as the
    statement keeps failing, every iteration that sees the plan sends the
    notice again.  Over [n] such iterations the run sends [n] notices,
    counts [n] database errors, leaves the table as it was and is still
    running.  (A failure of the commit alone is another matter: the row
    then stays readable, see [one_notice_per_new_plan].) *)
Theorem failed_upsert_renotifies config cid plan hv h nv envs s :
  truthy plan = true →
  getitem plan "height" = Ok hv →
  int hv = Ok h →
  getitem plan "name" = Ok nv →
  untracked cid h s →
  Forall (λ env, observed_plan config env = Ok plan
                 ∧ select_fault env = None
                 ∧ send_fault env = false
                 ∧ ∃ msg, write_fault env = Some (AtExecute, OperationalError msg)) envs →
  let r := while_true config cid envs s in
  outcome r = Ok Running
  ∧ count is_notice (emitted r) = length envs
  ∧ chains (final r) = chains s
  ∧ errors (final r) cid "database_update_failed"
    = (errors s cid "database_update_failed" + length envs)%nat.
Proof.
  intros Ht Hhv Hint Hn Hun Henvs. revert s Hun.
  induction Henvs as [|env envs (Hplan & Hsel & Hsend & msg & Hwrite) _ IH];
    intros s Hun; cbn zeta.
  { cbn. repeat split; lia. }
  pose proof (failed_upsert_tick config cid env s plan hv h nv msg
                Hplan Ht Hhv Hint Hn Hsel Hun Hsend Hwrite) as Hrun.
  rewrite (continue_goes_on _ _ _ _ _ _ _ Hrun).
  rewrite outcome_after, emitted_after, final_after, count_app.
  destruct (IH (counted cid "database_update_failed" (checked cid (clock env) s)))
    as (Hout & Hcount & Hchains & Herr); [done|].
  rewrite Hout, Hcount, Hchains, Herr, errors_counted_checked. cbn.
  repeat split; lia.
Qed.

Lemma failed_upsert_renotifies_witness :
  let env := Scenario.write_fails (OperationalError "database is locked")
               (Scenario.world (Scenario.plan_reply (Scenario.plan "v2" (VStr "5000")))
                               NoResponse) in
  let r := while_true Scenario.config Scenario.chain_id [env; env; env]
             (Scenario.store ∅) in
  count is_notice (emitted r) = 3%nat
  ∧ errors (final r) Scenario.chain_id "database_update_failed" = 3%nat.
Proof.
  cbv zeta.
  destruct (failed_upsert_renotifies Scenario.config Scenario.chain_id
    (Scenario.plan "v2" (VStr "5000")) (VStr "5000") 5000 (VStr "v2")
    (let env := Scenario.write_fails (OperationalError "database is locked")
               (Scenario.world (Scenario.plan_reply (Scenario.plan "v2" (VStr "5000")))
                               NoResponse) in [env; env; env])
    (Scenario.store ∅) eq_refl eq_refl eq_refl eq_refl)
    as (_ & Hcount & _ & Herr).
  - intros row Hrow. vm_compute in Hrow. discriminate.
  - repeat constructor; by exists "database is locked".
  - split; [exact Hcount | exact Herr].
Defined.

Lemma failed_mark_tick config cid env s plan hv h nv row current msg :
  observed_plan config env = Ok plan →
  truthy plan = true →
  getitem plan "height" = Ok hv →
  int hv = Ok h →
  getitem plan "name" = Ok nv →
  select_fault env = None →
  chains s !! cid = Some row →
  is_reminder_sent row = 0 →
  h <= upgrade_height row →
  observed_block config env = Ok current →
  upgrade_height row - current <= reminder_diff_blocks config →
  send_fault env = false →
  write_fault env = Some (AtExecute, OperationalError msg) →
  ∃ t, iteration config cid env s =
       {| outcome := Ok Continue;
          final := counted cid "database_update_failed" (checked cid (clock env) s);
          emitted := t |}
       ∧ count is_reminder t = 1%nat.
Proof.
  intros Hplan Ht Hhv Hint Hn Hsel Hrow Hflag Hle Hblock Hdue Hsend Hwrite.
  assert (Hh : plan_height plan = Ok h).
  { unfold plan_height. by rewrite Hhv. }
  rewrite (tracked_tick config cid env s plan h row) by done.
  rewrite tracked_upgrade_run, Hblock, Hflag.
  destruct (Z.leb_spec (upgrade_height row - current) (reminder_diff_blocks config))
    as [_|?]; [|lia].
  cbn [Z.eqb andb].
  rewrite remind_slack_run, Hh, Hn, Hhv, Hsend, update_db_reminder_run, Hwrite.
  cbn. eauto.
Qed.

(** X12.  The same for the reminder mark: when the [UPDATE] of
    [update_db_reminder] raises [OperationalError] the flag stays unset,
    so every later iteration within the threshold reminds again.  Over
    [n] iterations whose [UPDATE] fails so, the run sends [n] reminders
    and counts [n] database errors. *)
Theorem failed_mark_reminds_again config cid plan hv h nv row envs s :
  truthy plan = true →
  getitem plan "height" = Ok hv →
  int hv = Ok h →
  getitem plan "name" = Ok nv →
  chains s !! cid = Some row →
  is_reminder_sent row = 0 →
  h <= upgrade_height row →
  Forall (λ env, observed_plan config env = Ok plan
                 ∧ select_fault env = None
                 ∧ send_fault env = false
                 ∧ (∃ msg, write_fault env = Some (AtExecute, OperationalError msg))
                 ∧ ∃ current, observed_block config env = Ok current
                              ∧ upgrade_height row - current
                                <= reminder_diff_blocks config) envs →
  let r := while_true config cid envs s in
  outcome r = Ok Running
  ∧ count is_reminder (emitted r) = length envs
  ∧ chains (final r) = chains s
  ∧ errors (final r) cid "database_update_failed"
    = (errors s cid "database_update_failed" + length envs)%nat.
Proof.
  intros Ht Hhv Hint Hn Hrow Hflag Hle Henvs. revert s Hrow.
  induction Henvs
    as [|env envs (Hplan & Hsel & Hsend & (msg & Hwrite) & current & Hblock & Hdue) _ IH];
    intros s Hrow; cbn zeta.
  { cbn. repeat split; lia. }
  destruct (failed_mark_tick config cid env s plan hv h nv row current msg)
    as (t & Hrun & Ht1); try done.
  rewrite (continue_goes_on _ _ _ _ _ _ _ Hrun).
  rewrite outcome_after, emitted_after, final_after, count_app, Ht1.
  destruct (IH (counted cid "database_update_failed" (checked cid (clock env) s)))
    as (Hout & Hcount & Hchains & Herr); [done|].
  rewrite Hout, Hcount, Hchains, Herr, errors_counted_checked. cbn.
  repeat split; lia.
Qed.

Lemma failed_mark_reminds_again_witness :
  let env := Scenario.write_fails (OperationalError "database is locked")
               (Scenario.world (Scenario.plan_reply (Scenario.plan "v2" (VStr "5000")))
                               (Scenario.status_reply "4950")) in
  let r := while_true Scenario.config Scenario.chain_id [env; env]
             (Scenario.store (Scenario.tracking 5000 0)) in
  count is_reminder (emitted r) = 2%nat.
Proof.
  cbv zeta.
  destruct (failed_mark_reminds_again Scenario.config Scenario.chain_id
    (Scenario.plan "v2" (VStr "5000")) (VStr "5000") 5000 (VStr "v2")
    {| upgrade_height := 5000; is_reminder_sent := 0 |}
    (let env := Scenario.write_fails (OperationalError "database is locked")
               (Scenario.world (Scenario.plan_reply (Scenario.plan "v2" (VStr "5000")))
                               (Scenario.status_reply "4950")) in [env; env])
    (Scenario.store (Scenario.tracking 5000 0))
    eq_refl eq_refl eq_refl eq_refl eq_refl eq_refl)
    as (_ & Hcount & _).
  - vm_compute. discriminate.
  - repeat constructor; try by exists "database is locked".
    all: exists 4950; split; [reflexivity | vm_compute; discriminate].
  - exact Hcount.
Defined.

(** ** What every iteration keeps *)

(** X13.  The gauge follows the plan fetch and nothing else: an iteration
    whose plan fetch returned sets [last_checked_time] of the chain to the
    clock, whatever happens afterwards (an empty plan, a failed block
    fetch, an exception); an iteration whose plan fetch raised leaves the
    gauge as it was. *)
Theorem gauge_follows_plan_fetch config cid env s :
  last_checked_time (final (iteration config cid env s)) =
  match observed_plan config env with
  | Ok _ => <[cid := clock env]> (last_checked_time s)
  | Raise _ => last_checked_time s
  end.
Proof. case_split; done. Qed.

Lemma plan_of_response_raises req e :
  plan_of_response req = Raise e →
  is_own_exception e = true →
  e = PlanNotInRequest ∨ ∃ text, e = UpgradeRequestFailed text.
Proof.
  destruct req as [|status text body]; [by intros [= <-]|].
  destruct (decide (status = 200)) as [->|Hne].
  - rewrite plan_of_response_200.
    destruct body as [j|]; [|by intros [= <-]].
    destruct (contains "plan" j) as [[]|e'] eqn:Hc.
    + intros Hp%getitem_raises. by destruct e.
    + intros [= <-]. eauto.
    + apply contains_raises in Hc as ->. by intros [= <-].
  - rewrite plan_of_response_not_200 by done. intros [= <-]. eauto.
Qed.

Lemma height_of_response_raises req e :
  height_of_response req = Raise e →
  is_own_exception e = true →
  e = BlockNotInRequest ∨ ∃ text, e = BlockRequestFailed text.
Proof.
  destruct req as [|status text body]; [by intros [= <-]|].
  destruct (decide (status = 200)) as [->|Hne].
  - rewrite height_of_response_200.
    destruct body as [j|]; [|by intros [= <-]].
    destruct (contains "result" j) as [[]|e'] eqn:Hc.
    + intros Hp%block_path_raises. by destruct e.
    + intros [= <-]. eauto.
    + apply contains_raises in Hc as ->. by intros [= <-].
  - rewrite height_of_response_not_200 by done. intros [= <-]. eauto.
Qed.

Ltac not_own :=
  match goal with
  | H : plan_height _ = Raise _ |- _ =>
      apply plan_height_raises in H as [-> | [-> | [-> | ->]]]; done
  | H : getitem _ _ = Raise ?e |- _ =>
      apply getitem_raises in H; by destruct e
  | H : observed_plan _ _ = Raise _ |- _ =>
      apply plan_of_response_raises in H as [?|[? ?]]; done
  | H : observed_block _ _ = Raise _ |- _ =>
      apply height_of_response_raises in H as [?|[? ?]]; done
  end.

Lemma iteration_raises config cid env s e :
  outcome (iteration config cid env s) = Raise e → is_own_exception e = false.
Proof.
  case_split; intros; simplify_eq; try done; try not_own.
Qed.

(** X14.  The four exception classes that the module declares never leave
    [monitor]: each is caught where it can arise, so a run that ends with
    an exception ends with one of a builtin, of [requests], of [sqlite3]
    or of the Slack client. *)
Theorem own_exceptions_never_escape config cid db envs e :
  outcome (monitor config cid db envs) = Raise e → is_own_exception e = false.
Proof.
  unfold monitor. rewrite outcome_after.
  generalize {| chains := db; last_checked_time := ∅; error_counter := ∅ |}.
  induction envs as [|env envs IH]; intros s; [done|].
  rewrite while_true_cons.
  destruct (iteration config cid env s) as [[[]|e'] s1 t1] eqn:Hrun; cbn.
  - rewrite outcome_after. apply IH.
  - done.
  - intros [= <-]. apply (iteration_raises config cid env s). by rewrite Hrun.
Qed.

Lemma own_exceptions_never_escape_witness :
  let env := Scenario.world (Response 200 "" (Some (VInt 7))) NoResponse in
  outcome (monitor Scenario.config Scenario.chain_id ∅ [env]) = Raise TypeError
  ∧ is_own_exception TypeError = false.
Proof.
  split; [reflexivity|].
  exact (own_exceptions_never_escape Scenario.config Scenario.chain_id ∅
           [Scenario.world (Response 200 "" (Some (VInt 7))) NoResponse]
           TypeError eq_refl).
Defined.

Lemma iteration_returns config cid env s :
  outcome (iteration config cid env s) = Ok Return →
  ∃ e now msg args t,
    (e = PlanNotInRequest ∨ (∃ text, e = UpgradeRequestFailed text)
     ∨ e = BlockNotInRequest ∨ (∃ text, e = BlockRequestFailed text))
    ∧ (final (iteration config cid env s) = counted cid (error_label e) s
       ∨ final (iteration config cid env s)
         = counted cid (error_label e) (checked cid now s))
    ∧ emitted (iteration config cid env s) = t ++ [Log ERROR msg args]
    ∧ existsb is_alert t = false
    ∧ existsb is_write t = false
    ∧ existsb is_error_log t = false.
Proof.
  case_split; intros; simplify_eq.
  - exists BlockNotInRequest, (clock env). do 2 eexists.
    exists [Sleep (interval_seconds config); Log DEBUG "fetching upgrade plans" [];
            HttpGet (plan_url config); Execute (Select cid) None;
            HttpGet (status_url config)].
    repeat split; eauto 6.
  - exists (BlockRequestFailed text), (clock env). do 2 eexists.
    exists [Sleep (interval_seconds config); Log DEBUG "fetching upgrade plans" [];
            HttpGet (plan_url config); Execute (Select cid) None;
            HttpGet (status_url config)].
    repeat split; eauto 6.
  - exists (UpgradeRequestFailed text), 0. do 2 eexists.
    exists [Sleep (interval_seconds config); Log DEBUG "fetching upgrade plans" [];
            HttpGet (plan_url config)].
    repeat split; eauto 6.
  - exists PlanNotInRequest, 0. do 2 eexists.
    exists [Sleep (interval_seconds config); Log DEBUG "fetching upgrade plans" [];
            HttpGet (plan_url config)].
    repeat split; eauto 6.
Qed.

Lemma while_true_returns config cid envs s :
  outcome (while_true config cid envs s) = Ok Returned →
  (∃ t msg args, emitted (while_true config cid envs s) = t ++ [Log ERROR msg args])
  ∧ ∃ e, (e = PlanNotInRequest ∨ (∃ text, e = UpgradeRequestFailed text)
          ∨ e = BlockNotInRequest ∨ (∃ text, e = BlockRequestFailed text))
         ∧ (1 ≤ errors (final (while_true config cid envs s)) cid (error_label e))%nat.
Proof.
  revert s. induction envs as [|env envs IH]; intros s; [done|].
  rewrite while_true_cons.
  destruct (iteration config cid env s) as [[[]|e'] s1 t1] eqn:Hrun; cbn; [| |done].
  - rewrite outcome_after, emitted_after, final_after. intros Hret.
    destruct (IH s1 Hret) as ((t & msg & args & ->) & Hcount).
    split; [|done]. exists (t1 ++ t), msg, args. by rewrite app_assoc.
  - intros _.
    destruct (iteration_returns config cid env s) as
      (e & now & msg & args & t & He & Hfin & Hem & _); [by rewrite Hrun|].
    rewrite Hrun in Hfin, Hem. cbn in Hfin, Hem. split; [eauto|].
    exists e. split; [done|].
    destruct Hfin as [-> | ->]; rewrite errors_counted; lia.
Qed.

(** X15.  [monitor] never returns silently.  When a run returns, the last
    thing it did was to log an error, and the counter of one of the four
    fetch errors (plan or block, request failed or field missing) stands
    at one or more for the chain. *)
Theorem return_is_reported config cid db envs :
  outcome (monitor config cid db envs) = Ok Returned →
  let r := monitor config cid db envs in
  (∃ t msg args, emitted r = t ++ [Log ERROR msg args])
  ∧ ∃ e, (e = PlanNotInRequest ∨ (∃ text, e = UpgradeRequestFailed text)
          ∨ e = BlockNotInRequest ∨ (∃ text, e = BlockRequestFailed text))
         ∧ (1 ≤ errors (final r) cid (error_label e))%nat.
Proof.
  unfold monitor. rewrite outcome_after, emitted_after, final_after. intros Hret.
  destruct (while_true_returns _ _ _ _ Hret) as ((t & msg & args & ->) & Hcount).
  split; [|done]. eexists (_ :: _ :: t), msg, args. reflexivity.
Qed.

Lemma return_is_reported_witness :
  let ok := Scenario.world (Scenario.plan_reply VNone) NoResponse in
  let bad := Scenario.world (Response 500 "boom" None) NoResponse in
  let r := monitor Scenario.config Scenario.chain_id ∅ [ok; bad; ok] in
  ∃ t msg args, emitted r = t ++ [Log ERROR msg args].
Proof.
  exact (proj1
    (return_is_reported Scenario.config Scenario.chain_id ∅
       [Scenario.world (Scenario.plan_reply VNone) NoResponse;
        Scenario.world (Response 500 "boom" None) NoResponse;
        Scenario.world (Scenario.plan_reply VNone) NoResponse] eq_refl)).
Defined.

(** What one iteration does to the table: nothing, or the upsert of a
    height the table did not track, or the mark on the tracked record. *)
Lemma iteration_table config cid env s :
  let t' := chains (final (iteration config cid env s)) in
  t' = chains s
  ∨ (∃ h, untracked cid h s
          ∧ t' = <[cid := {| upgrade_height := h; is_reminder_sent := 0 |}]> (chains s))
  ∨ t' = alter marked cid (chains s).
Proof.
  cbn zeta. case_split; try (by left); try (by right; right).
  all: right; left; eexists; split; [|reflexivity].
  all: intros row Hrow; simplify_eq.
  all: match goal with H : (_ <=? _) = false |- _ => apply Z.leb_gt in H; lia end.
Qed.

Lemma while_true_table config cid envs s :
  let t' := chains (final (while_true config cid envs s)) in
  (∀ c, c ≠ cid → t' !! c = chains s !! c)
  ∧ (∀ row, chains s !! cid = Some row →
            ∃ row', t' !! cid = Some row' ∧ upgrade_height row <= upgrade_height row').
Proof.
  cbn zeta. revert s. induction envs as [|env envs IH]; intros s.
  { cbn. split; [done|]. intros row Hrow. exists row. split; [done | lia]. }
  assert (Hstep : (∀ c, c ≠ cid →
                     chains (final (iteration config cid env s)) !! c = chains s !! c)
                  ∧ (∀ row, chains s !! cid = Some row →
                     ∃ row', chains (final (iteration config cid env s)) !! cid = Some row'
                             ∧ upgrade_height row <= upgrade_height row')).
  { destruct (iteration_table config cid env s) as [-> | [(h & Hun & ->) | ->]].
    - split; [done|]. intros row Hrow. exists row. split; [done | lia].
    - split; [intros c Hc; by rewrite lookup_insert_ne|].
      intros row Hrow. rewrite lookup_insert_eq. eexists. split; [done|].
      cbn. specialize (Hun row Hrow). lia.
    - split; [intros c Hc; by rewrite lookup_alter_ne|].
      intros row Hrow. rewrite lookup_alter_eq, Hrow. eexists. split; [done|].
      cbn. lia. }
  destruct Hstep as (Hother & Hown).
  rewrite while_true_cons.
  destruct (iteration config cid env s) as [[[]|e'] s1 t1]; cbn in Hother, Hown |- *;
    [|done..].
  rewrite final_after. destruct (IH s1) as (IHother & IHown). split.
  - intros c Hc. by rewrite IHother, Hother.
  - intros row Hrow. destruct (Hown row Hrow) as (row1 & Hrow1 & Hle1).
    destruct (IHown row1 Hrow1) as (row2 & Hrow2 & Hle2).
    exists row2. split; [done | lia].
Qed.

(** X16.  A run of [monitor] for a chain whose id holds no single quote
    never touches the record of another chain: whatever the outside
    answers, every other key of the table reads at the end as it did at
    the start.  (An id with a quote changes the statements that the
    f-strings build, and is outside this statement.) *)
Theorem other_chains_untouched config cid db envs c :
  quote_free cid = true →
  c ≠ cid →
  chains (final (monitor config cid db envs)) !! c = db !! c.
Proof.
  intros _ Hc. unfold monitor. rewrite final_after.
  by apply (while_true_table config cid envs
              {| chains := db; last_checked_time := ∅; error_counter := ∅ |}).
Qed.

Lemma other_chains_untouched_witness :
  let db : gmap string Row :=
    <["osmosis-1" := {| upgrade_height := 777; is_reminder_sent := 1 |}]> ∅ in
  let env := Scenario.world (Scenario.plan_reply (Scenario.plan "v2" (VStr "5000")))
                            NoResponse in
  chains (final (monitor Scenario.config Scenario.chain_id db [env])) !! "osmosis-1"
  = Some {| upgrade_height := 777; is_reminder_sent := 1 |}.
Proof.
  exact (other_chains_untouched Scenario.config Scenario.chain_id
    (<["osmosis-1" := {| upgrade_height := 777; is_reminder_sent := 1 |}]> ∅)
    [Scenario.world (Scenario.plan_reply (Scenario.plan "v2" (VStr "5000"))) NoResponse]
    "osmosis-1" eq_refl ltac:(discriminate)).
Defined.

(** X17.  The watcher never deletes the record of its chain and never
    lowers its height: if the table tracks a height when [monitor] starts,
    it tracks that height or a higher one when the run stops, however the
    run ends. *)
Theorem recorded_height_never_decreases config cid db envs row :
  db !! cid = Some row →
  ∃ row', chains (final (monitor config cid db envs)) !! cid = Some row'
          ∧ upgrade_height row <= upgrade_height row'.
Proof.
  intros Hrow. unfold monitor. rewrite final_after.
  by apply (while_true_table config cid envs
              {| chains := db; last_checked_time := ∅; error_counter := ∅ |}).
Qed.

Lemma recorded_height_never_decreases_witness :
  let low := Scenario.world (Scenario.plan_reply (Scenario.plan "v1" (VStr "4000")))
                            (Scenario.status_reply "100") in
  let high := Scenario.world (Scenario.plan_reply (Scenario.plan "v3" (VStr "9000")))
                             NoResponse in
  ∃ row', chains (final (monitor Scenario.config Scenario.chain_id
                           (Scenario.tracking 5000 0) [low; high]))
            !! Scenario.chain_id = Some row'
          ∧ 5000 <= upgrade_height row'.
Proof.
  exact (recorded_height_never_decreases Scenario.config Scenario.chain_id
    (Scenario.tracking 5000 0)
    [Scenario.world (Scenario.plan_reply (Scenario.plan "v1" (VStr "4000")))
                    (Scenario.status_reply "100");
     Scenario.world (Scenario.plan_reply (Scenario.plan "v3" (VStr "9000"))) NoResponse]
    {| upgrade_height := 5000; is_reminder_sent := 0 |} eq_refl).
Defined.

(** ** One alert per event, when the table works *)

Lemma existsb_false_count kind (t : list Event) :
  existsb kind t = false → count kind t = 0%nat.
Proof.
  induction t as [|ev t IH]; cbn; [done|].
  destruct (kind ev); cbn; [discriminate | exact IH].
Qed.

Lemma no_upsert_no_new_height cid old (t : list Event) :
  existsb is_upsert t = false → existsb (records_new_height cid old) t = false.
Proof.
  induction t as [|ev t IH]; cbn; [done|].
  intros [Hev Ht]%orb_false_iff. rewrite (IH Ht), orb_false_r.
  by destruct ev as [| | | |[] []|].
Qed.




Lemma reminded_run_sends_no_reminder config cid plan h row envs s :
  truthy plan = true →
  plan_height plan = Ok h →
  chains s !! cid = Some row →
  is_reminder_sent row ≠ 0 →
  h <= upgrade_height row →
  Forall (λ env, observed_plan config env = Ok plan) envs →
  count is_reminder (emitted (while_true config cid envs s)) = 0%nat.
Proof.
  intros Ht Hh Hrow Hflag Hle Henvs. revert s Hrow.
  induction Henvs as [|env envs Hplan _ IH]; intros s Hrow; [done|].
  destruct (iteration_tracked_height config cid env s plan h row)
    as (_ & Hup & _); try done.
  destruct (iteration_after_reminder config cid env s row Hrow Hflag)
    as (Hnone%existsb_false_count & Hkeep).
  specialize (Hkeep (no_upsert_no_new_height _ _ _ Hup)).
  rewrite while_true_cons.
  destruct (iteration config cid env s) as [[[]|e] s1 t1]; cbn in Hnone, Hkeep |- *;
    try done.
  rewrite emitted_after, count_app, Hnone. apply IH. by rewrite Hkeep.
Qed.

(** X19.  With a table that takes the mark, an upgrade is reminded of
    once.  If an iteration sends the reminder and its mark goes through,
    then however many iterations see the same plan afterwards, at
    whatever block height, the run sends exactly one reminder. *)
Theorem one_reminder_per_upgrade config cid plan hv h nv row current env rest s :
  truthy plan = true →
  getitem plan "height" = Ok hv →
  int hv = Ok h →
  getitem plan "name" = Ok nv →
  chains s !! cid = Some row →
  is_reminder_sent row = 0 →
  h <= upgrade_height row →
  observed_plan config env = Ok plan →
  select_fault env = None →
  observed_block config env = Ok current →
  upgrade_height row - current <= reminder_diff_blocks config →
  send_fault env = false →
  write_fault env = None →
  Forall (λ env', observed_plan config env' = Ok plan) rest →
  count is_reminder (emitted (while_true config cid (env :: rest) s)) = 1%nat.
Proof.
  intros Ht Hhv Hint Hn Hrow Hflag Hle Hplan Hsel Hblock Hdue Hsend Hwrite Hrest.
  assert (Hh : plan_height plan = Ok h).
  { unfold plan_height. by rewrite Hhv. }
  rewrite while_true_cons.
  rewrite (tracked_tick config cid env s plan h row) by done.
  rewrite tracked_upgrade_run, Hblock, Hflag.
  destruct (Z.leb_spec (upgrade_height row - current) (reminder_diff_blocks config))
    as [_|?]; [|lia].
  cbn [Z.eqb andb].
  rewrite remind_slack_run, Hh, Hn, Hhv, Hsend, update_db_reminder_run, Hwrite.
  cbn -[while_true]. rewrite emitted_after. cbn -[while_true].
  rewrite (reminded_run_sends_no_reminder config cid plan h (marked row)); try done.
  cbn. by rewrite lookup_alter_eq, Hrow.
Qed.

Lemma one_reminder_per_upgrade_witness :
  let env := Scenario.world (Scenario.plan_reply (Scenario.plan "v2" (VStr "5000")))
                            (Scenario.status_reply "4950") in
  count is_reminder
    (emitted (while_true Scenario.config Scenario.chain_id [env; env; env]
                (Scenario.store (Scenario.tracking 5000 0)))) = 1%nat.
Proof.
  cbv zeta.
  refine (one_reminder_per_upgrade Scenario.config Scenario.chain_id
    (Scenario.plan "v2" (VStr "5000")) (VStr "5000") 5000 (VStr "v2")
    {| upgrade_height := 5000; is_reminder_sent := 0 |} 4950
    (Scenario.world (Scenario.plan_reply (Scenario.plan "v2" (VStr "5000")))
                    (Scenario.status_reply "4950"))
    (let env := Scenario.world (Scenario.plan_reply (Scenario.plan "v2" (VStr "5000")))
                               (Scenario.status_reply "4950") in [env; env])
    (Scenario.store (Scenario.tracking 5000 0))
    eq_refl eq_refl eq_refl eq_refl eq_refl eq_refl _ eq_refl eq_refl eq_refl _
    eq_refl eq_refl _).
  - vm_compute. discriminate.
  - vm_compute. discriminate.
  - repeat constructor.
Defined.
